(** * redisco containers: the typed list proxy over a Redis list

    A shallow embedding of [redisco/containers.py] (Python 2): the [db]
    property of [Container], the list commands [List] delegates to the
    store, and the [TypedList] proxy that casts stored values on the way out
    and extracts identifiers on the way in. *)

From Stdlib Require Import ZArith Ascii String.
From stdpp Require Import gmap strings list pretty.

(** ** Python values, exceptions and slices *)

Module Py.

(** The exceptions that reach a caller of the containers. *)
Inductive exn :=
| ValueError (msg : string)
| TypeError (msg : string)
| AttributeError (attr : string)
| ImportError (name : string)
| OtherError (cls msg : string).

Inductive result (A : Type) :=
| Ok (a : A)
| Raise (e : exn).
Arguments Ok {A} a.
Arguments Raise {A} e.

Definition result_bind {A B} (r : result A) (k : A -> result B) : result B :=
  match r with
  | Ok a => k a
  | Raise e => Raise e
  end.

Definition result_map {A B} (f : A -> B) (r : result A) : result B :=
  match r with
  | Ok a => Ok (f a)
  | Raise e => Raise e
  end.

(** Objects that flow through the containers: [None], byte strings,
    integers and instances of user classes (model entities included). *)
Inductive obj (instance : Type) :=
| None_
| Str (s : string)
| Int (n : Z)
| Inst (o : instance).
Arguments None_ {instance}.
Arguments Str {instance} s.
Arguments Int {instance} n.
Arguments Inst {instance} o.

(** [o is not None] *)
Definition is_not_None {instance} (o : obj instance) : bool :=
  match o with
  | None_ => false
  | _ => true
  end.

(** A list comprehension [[f(v) for v in values]]: the calls run left to
    right and the first exception ends the comprehension. *)
Fixpoint comprehension {A B} (f : A -> result B) (values : list A)
  : result (list B) :=
  match values with
  | [] => Ok []
  | v :: rest =>
      result_bind (f v) (fun b =>
      result_bind (comprehension f rest) (fun bs => Ok (b :: bs)))
  end.

(** [slice(start, stop, step)], each component [None] or an integer. *)
Record slice := Slice {
  start : option Z;
  stop : option Z;
  step : option Z
}.

(** One bound of [slice.indices]: a negative bound counts from the end, and
    the result is clamped to the range the step direction allows. *)
Definition clamp_bound (step length : Z) (bound : Z) : Z :=
  let b := if (bound <? 0)%Z then (bound + length)%Z else bound in
  if (b <? 0)%Z then (if (step <? 0)%Z then (-1)%Z else 0%Z)
  else if (length <=? b)%Z
       then (if (step <? 0)%Z then (length - 1)%Z else length)
       else b.

(** [slice.indices(length)] of the interpreter. *)
Definition slice_indices (s : slice) (length : Z) : result (Z * Z * Z) :=
  let st := match step s with None => 1%Z | Some k => k end in
  if (st =? 0)%Z then Raise (ValueError "slice step cannot be zero")
  else
    let defstart := if (st <? 0)%Z then (length - 1)%Z else 0%Z in
    let defstop := if (st <? 0)%Z then (-1)%Z else length in
    let lo := match start s with
              | None => defstart
              | Some a => clamp_bound st length a
              end in
    let hi := match stop s with
              | None => defstop
              | Some b => clamp_bound st length b
              end in
    Ok (lo, hi, st).

(** What a subscript [x[index]] passes to [__getitem__]. *)
Inductive index :=
| IInt (i : Z)
| ISlice (s : slice)
| IOther.

End Py.

Import Py.

(** ** The collaborators outside [containers.py]

    [models.base] (the model registry and the [Model] family), the classes a
    caller passes as [target_type], the store client and its pipelines, and
    the process-wide connection are not part of the module; the containers
    are verified against this interface. *)
Class External := {
  (** connection and pipeline objects *)
  handle : Type;
  (** classes and other callables that can be given as [target_type] *)
  callable : Type;
  (** instances of user classes *)
  instance : Type;
  (** [models.base.get_model_from_key(name)], [None] when nothing is
      registered under the name *)
  get_model_from_key : string -> option callable;
  (** [issubclass(k, Model)]; the interpreter raises when [k] is no class *)
  issubclass_Model : callable -> result bool;
  (** [k.objects.get_by_id(value)], Python's [None] when no entity has the
      identifier *)
  get_by_id : callable -> obj instance -> obj instance;
  (** calling [k] with positional and keyword arguments *)
  call : callable -> list (obj instance) -> list (string * obj instance)
         -> result (obj instance);
  (** the attribute [id] of an instance, if it has one *)
  inst_id : instance -> option (obj instance);
  (** the bytes the store client sends for a command argument *)
  encode : obj instance -> string;
  (** what [from redisco import connection] gives while the calls run: a
      connection, [None], or the exception of the import *)
  redisco_connection : result (option handle);
  (** whether a handle is a pipeline, which buffers a command and returns
      itself, or a client, which runs the command on the store *)
  is_pipeline : handle -> bool;
  (** a handle as the Python object it is *)
  handle_instance : handle -> instance;
  (** what a [for] loop over a handle yields, or the exception it raises *)
  iter_handle : handle -> result (list (obj instance));
  (** [p == q] for two handles, the identity of objects *)
  handle_is : handle -> handle -> bool
}.

Abbreviation pyobj := (obj instance).

(** ** The store and the effects of a call

    The store holds a list of byte strings under each key. The four list
    commands the typed list needs follow the store's command reference. *)

Module Redis.
Section WithExternal.
Context `{E : External}.

Inductive command :=
  | LRANGE (key : string) (start stop : Z)
  | LLEN (key : string)
  | LINDEX (key : string) (i : Z)
  | RPUSH (key : string) (value : pyobj).

(** What a call does that the outside can see: a command handed to the
    execution context, which a client runs on the store and a pipeline
    buffers, or a lookup of a model name in the registry. *)
Inductive event :=
  | EvCommand (c : command)
  | EvResolve (name : string).

Record world := World {
  store : gmap string (list string);
  trace : list event
}.

(** A key that holds nothing is an empty list. *)
Definition elements (st : gmap string (list string)) (key : string)
  : list string :=
  default [] (st !! key).

(** LLEN *)
Definition llen (l : list string) : Z := Z.of_nat (length l).

(** LINDEX: negative indexes count from the tail; nil outside the list. *)
Definition lindex (l : list string) (i : Z) : option string :=
  let j := if (i <? 0)%Z then (llen l + i)%Z else i in
  if (j <? 0)%Z then None else l !! Z.to_nat j.

(** LRANGE: both ends are offsets, negative ones count from the tail, and
    the element at [stop] is part of the reply. *)
Definition lrange (l : list string) (start stop : Z) : list string :=
  let n := llen l in
  let s := if (start <? 0)%Z then (n + start)%Z else start in
  let e := if (stop <? 0)%Z then (n + stop)%Z else stop in
  let s := if (s <? 0)%Z then 0%Z else s in
  if ((e <? s) || (n <=? s))%Z then []
  else
    let e := if (n <=? e)%Z then (n - 1)%Z else e in
    take (Z.to_nat (e - s + 1)) (drop (Z.to_nat s) l).

(** RPUSH *)
Definition rpush (l : list string) (v : string) : list string := l ++ [v].

End WithExternal.
End Redis.

Import Redis.

Section Effects.
Context `{E : External}.

(** A computation reads and updates the world and returns or raises. *)
Definition M (A : Type) : Type := world -> result A * world.

Definition ret {A} (a : A) : M A := fun w => (Ok a, w).

Definition raise {A} (e : exn) : M A := fun w => (Raise e, w).

Definition bind {A B} (m : M A) (k : A -> M B) : M B :=
  fun w =>
    match m w with
    | (Ok a, w') => k a w'
    | (Raise e, w') => (Raise e, w')
    end.

Definition lift {A} (r : result A) : M A := fun w => (r, w).

Definition emit (ev : event) : M unit :=
  fun w => (Ok tt, World (store w) (trace w ++ [ev])).

Definition read (key : string) : M (list string) :=
  fun w => (Ok (elements (store w) key), w).

Definition write (key : string) (l : list string) : M unit :=
  fun w => (Ok tt, World (<[key := l]> (store w)) (trace w)).

(** The world after the events [evs], the store as it was. *)
Definition logged (w : world) (evs : list event) : world :=
  World (store w) (trace w ++ evs).

(** One [LINDEX] for each of the positions [i], ..., [i + k - 1]. *)
Definition requests (key : string) (i k : nat) : list event :=
  (fun j => EvCommand (LINDEX key (Z.of_nat j))) <$> seq i k.

(** The events of a computation that sends commands to the store and
    asks the registry for no model name. *)
Definition is_command (ev : event) : Prop :=
  match ev with
  | EvCommand _ => True
  | EvResolve _ => False
  end.

Definition commands_only {A} (m : M A) : Prop :=
  forall w, exists evs,
    trace (m w).2 = trace w ++ evs /\ Forall is_command evs.

End Effects.

Notation "'let*' x ':=' c1 'in' c2" := (bind c1 (fun x => c2))
  (at level 10, x name, c1 at level 100, c2 at level 200).

Section Loops.
Context `{E : External}.

(** [map(f, values)] of Python 2 for an [f] with effects: the calls run in
    order, eagerly. *)
Fixpoint for_each {A B} (f : A -> M B) (values : list A)
  : M (list B) :=
  match values with
  | [] => ret []
  | v :: rest =>
      let* b := f v in
      let* bs := for_each f rest in
      ret (b :: bs)
  end.

End Loops.

(** ** [class Container] *)

Module Container.
Section WithExternal.
Context `{E : External}.

(** The attributes of an instance; [db_cache] is [None] until the
    attribute has been set. *)
Record t := Make {
  _db : option handle;
  key : string;
  pipeline : option handle;
  db_cache : option (option handle)
}.

(** [Container.__init__(key, db=None, pipeline=None)] *)
Definition __init__ (key : string) (db pipeline : option handle) : t :=
  Make db key pipeline None.

(** The property [db]. [connection] is what [from redisco import
    connection] gives at the time of the call. The instance comes back
    with the result because the property may set [db_cache]. *)
Definition db (connection : result (option handle)) (self : t)
  : result (option handle) * t :=
  match pipeline self with
  | Some p => (Ok (Some p), self)
  | None =>
      match _db self with
      | Some d => (Ok (Some d), self)
      | None =>
          match db_cache self with
          | Some (Some c) => (Ok (Some c), self)
          | _ =>
              match connection with
              | Ok c =>
                  (Ok c, Make (_db self) (key self) (pipeline self) (Some c))
              | Raise e => (Raise e, self)
              end
          end
      end
  end.

End WithExternal.
End Container.

(** ** The execution context of a call

    A delegated method [self.att(args)] is, by [Container.__getattribute__],
    [getattr(self.db, att)(self.key, args)]: the property [db] is read
    before every command. The property may assign [db_cache]; under one
    process-wide connection the next reading returns the same handle with
    or without that assignment, so a call keeps the handle and not the
    instance. *)

(** A Python 2 [int] on a 64-bit build; a number outside is a [long]. *)
Definition is_int (i : Z) : bool := ((- 2 ^ 63 <=? i) && (i <? 2 ^ 63))%Z.

Section Dispatch.
Context `{E : External}.

(** What [self.db] is when it is not [None]. *)
Inductive context :=
| Client (h : handle)
| Pipeline (p : handle).

(** [self.db] *)
Definition db_now (self : Container.t) : result (option handle) :=
  (Container.db redisco_connection self).1.

(** [getattr(self.db, att)]: [None] has no attribute. *)
Definition method (self : Container.t) (att : string) : result context :=
  match db_now self with
  | Ok (Some h) => Ok (if is_pipeline h then Pipeline h else Client h)
  | Ok None => Raise (AttributeError att)
  | Raise e => Raise e
  end.

(** [self.db] is a client. *)
Definition connected (self : Container.t) : bool :=
  match db_now self with
  | Ok (Some h) => negb (is_pipeline h)
  | _ => false
  end.

(** What a command returns: the reply of the store, or the pipeline that
    buffered the command. *)
Inductive reply (A : Type) :=
| Reply (a : A)
| Queued (p : handle).
Arguments Reply {A} a.
Arguments Queued {A} p.

(** The command [run] on what [getattr(self.db, att)] found. *)
Definition on_context {A} (db : context) (run : M A) : M (reply A) :=
  match db with
  | Client _ => let* a := run in ret (Reply a)
  | Pipeline p => ret (Queued p)
  end.

(** The builtin [len(x)] on what [x.__len__()] returned. *)
Definition len (r : reply Z) : result Z :=
  match r with
  | Reply n => Ok n
  | Queued _ => Raise (TypeError "an integer is required")
  end.

(** A pipeline as the object the caller gets back. *)
Definition obj_of (r : reply pyobj) : pyobj :=
  match r with
  | Reply v => v
  | Queued p => Inst (handle_instance p)
  end.

(** [for v in values] *)
Definition iterate_values (values : reply (list pyobj))
  : result (list pyobj) :=
  match values with
  | Reply l => Ok l
  | Queued p => iter_handle p
  end.

End Dispatch.

Arguments Reply {E A} a.
Arguments Queued {E A} p.

(** ** [class List(Container)] *)

Module List.
Section WithExternal.
Context `{E : External}.

Definition t : Type := Container.t.

(** The delegated methods. *)

Definition lrange (self : t) (start stop : Z) : M (reply (list pyobj)) :=
  let* db := lift (method self "lrange") in
  let* _ := emit (EvCommand (LRANGE (Container.key self) start stop)) in
  on_context db
    (let* l := read (Container.key self) in
     ret (Str <$> Redis.lrange l start stop)).

Definition llen (self : t) : M (reply Z) :=
  let* db := lift (method self "llen") in
  let* _ := emit (EvCommand (LLEN (Container.key self))) in
  on_context db
    (let* l := read (Container.key self) in
     ret (Redis.llen l)).

(** The store answers an index beyond 64 bits with an error. *)
Definition lindex (self : t) (i : Z) : M (reply pyobj) :=
  let* db := lift (method self "lindex") in
  let* _ := emit (EvCommand (LINDEX (Container.key self) i)) in
  on_context db
    (if is_int i
     then let* l := read (Container.key self) in
          ret (match Redis.lindex l i with
               | Some s => Str s
               | None => None_
               end)
     else raise (OtherError "ResponseError"
                            "value is not an integer or out of range")).

Definition rpush (self : t) (value : pyobj) : M (reply Z) :=
  let* db := lift (method self "rpush") in
  let* _ := emit (EvCommand (RPUSH (Container.key self) value)) in
  on_context db
    (let* l := read (Container.key self) in
     let* _ := write (Container.key self) (Redis.rpush l (encode value)) in
     ret (Redis.llen (Redis.rpush l (encode value)))).

Definition all (self : t) : M (reply (list pyobj)) :=
  lrange self 0 (-1).

Definition __len__ (self : t) : M (reply Z) :=
  llen self.

(** A subscript with a slice gives a sequence, any other one element. *)
Definition item (index : Py.index) : Type :=
  match index with
  | ISlice _ => reply (list pyobj)
  | _ => reply pyobj
  end.

(** An index beyond 64 bits is a [long], which is no [int] and no
    [slice]. *)
Definition __getitem__ (self : t) (index : Py.index) : M (item index) :=
  match index return M (item index) with
  | IInt i =>
      if is_int i then lindex self i else raise (TypeError "")
  | ISlice s =>
      let* r := __len__ self in
      let* n := lift (len r) in
      let* indices := lift (slice_indices s n) in
      lrange self indices.1.1 indices.1.2
  | IOther => raise (TypeError "")
  end.

Definition append (self : t) (value : pyobj) : M unit :=
  let* _ := rpush self value in
  ret tt.

Definition extend (self : t) (iterable : list pyobj) : M unit :=
  let* _ := for_each (fun i => rpush self i) iterable in
  ret tt.

End WithExternal.
End List.

(** ** [class TypedList] *)

Module TypedList.
Section WithExternal.
Context `{E : External}.

Record t := Make {
  list_ : List.t;
  klass : callable;
  _klass_args : list pyobj;
  _klass_kwargs : list (string * pyobj);
  _redisco_model : bool
}.

(** [target_type]: a string that names a model, or the type itself. *)
Inductive target :=
| Name (name : string)
| Type_ (k : callable).

Definition value_type (target_type : target) : M callable :=
  match target_type with
  | Name t0 =>
      let* _ := emit (EvResolve t0) in
      match get_model_from_key t0 with
      | None => raise (ValueError ("Unknown Redisco class " ++ t0))
      | Some k => ret k
      end
  | Type_ k => ret k
  end.

(** [TypedList(key, target_type, type_args, type_kwargs, db=, pipeline=)] *)
Definition __init__ (key : string) (target_type : target)
    (type_args : list pyobj) (type_kwargs : list (string * pyobj))
    (db pipeline : option handle) : M t :=
  let l := Container.__init__ key db pipeline in
  let* k := value_type target_type in
  let* m := lift (issubclass_Model k) in
  ret (Make l k type_args type_kwargs m).

Definition typecast_item (self : t) (value : pyobj) : result pyobj :=
  if _redisco_model self
  then Ok (get_by_id (klass self) value)
  else call (klass self) (value :: _klass_args self) (_klass_kwargs self).

Definition typecast_iter (self : t) (values : list pyobj)
  : result (list pyobj) :=
  if _redisco_model self
  then Ok (filter (fun o => is_not_None o)
                  (get_by_id (klass self) <$> values))
  else comprehension
         (fun v => call (klass self) (v :: _klass_args self)
                        (_klass_kwargs self))
         values.

(** [typecast_iter] on what the list returned: its loop runs over the
    reply, or over the pipeline. *)
Definition typecast_values (self : t) (values : reply (list pyobj))
  : result (list pyobj) :=
  result_bind (iterate_values values) (typecast_iter self).

Definition all (self : t) : M (list pyobj) :=
  let* values := List.all (list_ self) in
  lift (typecast_values self values).

(** [len(self.list)] *)
Definition __len__ (self : t) : M Z :=
  let* r := List.__len__ (list_ self) in
  lift (len r).

(** A subscript with a slice gives a list, any other one object. *)
Definition item (index : Py.index) : Type :=
  match index with
  | ISlice _ => list pyobj
  | _ => pyobj
  end.

Definition __getitem__ (self : t) (index : Py.index) : M (item index) :=
  let* val := List.__getitem__ (list_ self) index in
  match index return List.item index -> M (item index) with
  | ISlice _ => fun val => lift (typecast_values self val)
  | _ => fun val => lift (typecast_item self (obj_of val))
  end val.

(** [value.id] *)
Definition getattr_id (value : pyobj) : result pyobj :=
  match value with
  | Inst o =>
      match inst_id o with
      | Some i => Ok i
      | None => Raise (AttributeError "id")
      end
  | _ => Raise (AttributeError "id")
  end.

Definition typecast_stor (self : t) (value : pyobj) : result pyobj :=
  if _redisco_model self then getattr_id value else Ok value.

Definition append (self : t) (value : pyobj) : M unit :=
  let* v := lift (typecast_stor self value) in
  List.append (list_ self) v.

Definition extend (self : t) (iter : list pyobj) : M unit :=
  let* vs := lift (comprehension (typecast_stor self) iter) in
  List.extend (list_ self) vs.

(** The generator [__iter__] returns: not yet started, suspended at the
    [yield] of position [i] with the bound [n] of the loop, or done. *)
Inductive generator :=
| Created
| Suspended (i n : Z)
| Finished.

(** The loop of [__iter__] at position [i]: yield [self[i]], or stop. *)
Definition iter_step (self : t) (i n : Z)
  : M (option pyobj * generator) :=
  if (i <? n)%Z
  then let* v := __getitem__ self (IInt i) in
       ret (Some v, Suspended i n)
  else ret (None, Finished).

(** [next(g)]: [None] stands for [StopIteration]. *)
Definition next (self : t) (g : generator)
  : M (option pyobj * generator) :=
  match g with
  | Created =>
      let* r := List.__len__ (list_ self) in
      let* n := lift (len r) in
      iter_step self 0 n
  | Suspended i n => iter_step self (i + 1) n
  | Finished => ret (None, Finished)
  end.

(** A [for] loop over [g] that collects what it yields: call [next] until
    the generator stops; [None] when the fuel runs out first. *)
Fixpoint drain (fuel : nat) (self : t) (g : generator)
  : M (option (list pyobj)) :=
  match fuel with
  | O => ret None
  | S fuel' =>
      let* r := next self g in
      match r with
      | (None, _) => ret (Some [])
      | (Some v, g') =>
          let* rest := drain fuel' self g' in
          ret (cons v <$> rest)
      end
  end.

(** Calling the generator function runs none of its body. *)
Definition __iter__ (self : t) : generator := Created.

(** [[x for x in proxy]] *)
Definition iterate (fuel : nat) (self : t) : M (option (list pyobj)) :=
  drain fuel self (__iter__ self).

(** The caller's [proxy.append(e); proxy[len(proxy) - 1]] *)
Definition append_then_last (self : t) (e : pyobj) : M pyobj :=
  let* _ := append self e in
  let* n := __len__ self in
  __getitem__ self (IInt (n - 1)).

End WithExternal.
End TypedList.

(** ** A small registry to run the containers on

    One model, [User], with the entities [a] and [c]; the builtins [int] and
    [str]; and a function, which is callable but no class. The handle
    [pipe] is a pipeline, every other one a client; as in the package at
    hand, [redisco] has no [connection] to import. *)

Module Scenario.

Inductive toy_callable := int_ | str_ | User | function_.

Definition digit (c : ascii) : option Z :=
  let n := Z.of_nat (nat_of_ascii c) in
  if ((48 <=? n) && (n <=? 57))%Z then Some (n - 48)%Z else None.

Fixpoint digits (acc : Z) (s : string) : option Z :=
  match s with
  | EmptyString => Some acc
  | String c rest =>
      match digit c with
      | Some d => digits (10 * acc + d)%Z rest
      | None => None
      end
  end.

(** [int(s)] on an unsigned decimal literal *)
Definition parse_int (s : string) : option Z :=
  match s with
  | EmptyString => None
  | _ => digits 0 s
  end.

Definition toy : External := {|
  handle := string;
  callable := toy_callable;
  instance := string;
  get_model_from_key name :=
    if decide (name = "User") then Some User else None;
  issubclass_Model k :=
    match k with
    | User => Ok true
    | function_ => Raise (TypeError "issubclass() arg 1 must be a class")
    | _ => Ok false
    end;
  get_by_id k v :=
    match k, v with
    | User, Str s =>
        if decide (s = "a") then Inst s
        else if decide (s = "c") then Inst s
        else None_
    | _, _ => None_
    end;
  call k args kwargs :=
    match k, args, kwargs with
    | int_, [Str s], [] =>
        match parse_int s with
        | Some n => Ok (Int n)
        | None => Raise (ValueError "invalid literal for int()")
        end
    | int_, [Int n], [] => Ok (Int n)
    | str_, [Str s], [] => Ok (Str s)
    | _, _, _ => Raise (TypeError "")
    end;
  inst_id o := Some (Str o);
  encode v :=
    match v with
    | None_ => "None"
    | Str s => s
    | Int n => pretty n
    | Inst o => o
    end;
  redisco_connection := Raise (ImportError "cannot import name connection");
  is_pipeline h := String.eqb h "pipe";
  handle_instance h := h;
  iter_handle h := Raise (TypeError "object is not iterable");
  handle_is p q := String.eqb p q
|}.

#[local] Existing Instance toy.

Definition users : TypedList.t :=
  TypedList.Make (Container.__init__ "users" (Some "conn") None)
                 User [] [] true.

Definition numbers : TypedList.t :=
  TypedList.Make (Container.__init__ "numbers" (Some "conn") None)
                 int_ [] [] false.

Definition world0 : world :=
  World (<["users" := ["a"; "b"; "c"]]>
         (<["numbers" := ["1"; "2"; "3"]]> ∅)) [].


(** A container that was given neither a pipeline nor a connection. *)
Definition bare : Container.t := Container.__init__ "bare" None None.

(** The users through a pipeline, and without any connection. *)
Definition piped_users : TypedList.t :=
  TypedList.Make (Container.__init__ "users" (Some "conn") (Some "pipe"))
                 User [] [] true.


(** The numbers through a pipeline, and without any connection. *)
Definition piped_numbers : TypedList.t :=
  TypedList.Make (Container.__init__ "numbers" (Some "conn") (Some "pipe"))
                 int_ [] [] false.

Definition stranded_numbers : TypedList.t :=
  TypedList.Make (Container.__init__ "numbers" None None) int_ [] [] false.

End Scenario.

(** ** The methods that write beyond the tail

    The remaining methods of [List] and [Set] and the assignment through
    [TypedList] change the store in ways the four commands above do not.
    They are modelled as steps on the store alone. *)

(** A step reads and updates a store [S] and returns or raises. *)
Definition ST (S A : Type) : Type := S -> result A * S.

Definition step_ret {S A} (a : A) : ST S A := fun st => (Ok a, st).

Definition step_raise {S A} (e : exn) : ST S A := fun st => (Raise e, st).

Definition step_lift {S A} (r : result A) : ST S A := fun st => (r, st).

Definition step_bind {S A B} (m : ST S A) (k : A -> ST S B) : ST S B :=
  fun st =>
    match m st with
    | (Ok a, st') => k a st'
    | (Raise e, st') => (Raise e, st')
    end.

Notation "'let+' x ':=' c1 'in' c2" := (step_bind c1 (fun x => c2))
  (at level 10, x name, c1 at level 100, c2 at level 200).

(** A [for] loop whose body is a step. *)
Fixpoint step_for_each {S A} (f : A -> ST S unit) (values : list A)
  : ST S unit :=
  match values with
  | [] => step_ret tt
  | v :: rest =>
      let+ _ := f v in
      step_for_each f rest
  end.

Section Delegation.
Context `{E : External}.

(** A call of the methods above, as a step on the store of lists. *)
Definition untraced {A} (m : M A) : ST (gmap string (list string)) A :=
  fun st => ((m (World st [])).1, store (m (World st [])).2).

(** [getattr(self.db, att)(args)], which is also what [self.att(args)] is
    for a delegated [att]: a client runs the command [run] on the store, a
    pipeline buffers it and returns itself. *)
Definition delegated {S A} (self : Container.t) (att : string)
    (run : ST S A) : ST S (reply A) :=
  let+ db := step_lift (method self att) in
  match db with
  | Client _ => let+ a := run in step_ret (Reply a)
  | Pipeline p => step_ret (Queued p)
  end.

(** [Container.clear]: [del self.db[self.key]]. The client deletes the
    key, a pipeline buffers the deletion, [None] has no items. *)
Definition clear {V} (self : Container.t) : ST (gmap string V) unit :=
  let+ db := step_lift (db_now self) in
  match db with
  | None =>
      step_raise
        (TypeError "'NoneType' object does not support item deletion")
  | Some h =>
      if is_pipeline h then step_ret tt
      else fun st => (Ok tt, delete (Container.key self) st)
  end.

(** [r.att] for an attribute of the reply that a pipeline does not have. *)
Definition attribute_of {A} (att : string) (r : reply A) : result A :=
  match r with
  | Reply a => Ok a
  | Queued _ => Raise (AttributeError att)
  end.

End Delegation.

(** The other list commands of the store. *)
Module RedisList.

(** [ResponseError], the client's exception for an error reply; the
    message is the reply without its [ERR] prefix. *)
Definition ResponseError (msg : string) : exn := OtherError "ResponseError" msg.

(** LSET: an error reply for an index beyond 64 bits, for a missing key
    and for an index outside the list; negative indexes count from the
    tail. *)
Definition lset (l : list string) (i : Z) (v : string) : result (list string) :=
  if negb (is_int i)
  then Raise (ResponseError "value is not an integer or out of range")
  else
    match l with
    | [] => Raise (ResponseError "no such key")
    | _ =>
        let n := Redis.llen l in
        let j := if (i <? 0)%Z then (n + i)%Z else i in
        if ((j <? 0) || (n <=? j))%Z
        then Raise (ResponseError "index out of range")
        else Ok (<[Z.to_nat j := v]> l)
    end.

(** LPUSH *)
Definition lpush (l : list string) (v : string) : list string := v :: l.

(** RPOP: the last element and the rest, nil on an empty list. *)
Definition rpop (l : list string) : option string * list string :=
  match last l with
  | Some x => (Some x, take (length l - 1) l)
  | None => (None, l)
  end.

(** LPOP *)
Definition lpop (l : list string) : option string * list string :=
  match l with
  | x :: rest => (Some x, rest)
  | [] => (None, l)
  end.

(** RPOPLPUSH source destination *)
Definition rpoplpush (st : gmap string (list string)) (src dst : string)
  : option string * gmap string (list string) :=
  match rpop (elements st src) with
  | (Some x, rest) =>
      let st1 := <[src := rest]> st in
      (Some x, <[dst := lpush (elements st1 dst) x]> st1)
  | (None, _) => (None, st)
  end.

End RedisList.

(** ** [class List], the other methods *)

Module ListMore.
Section WithExternal.
Context `{E : External}.

(** [repr] of a byte string, for the message of [list.index]. *)
Variable repr : string -> string.

Abbreviation lists := (gmap string (list string)).

(** A reply of the store that is a string or nil. *)
Definition bulk (r : option string) : pyobj :=
  match r with
  | Some s => Str s
  | None => None_
  end.

(** The delegated methods. *)

(** [self.lset(index, value)] *)
Definition lset (self : List.t) (index : Z) (value : pyobj)
  : ST lists (reply unit) :=
  delegated self "lset"
    (fun st =>
       match RedisList.lset (elements st (Container.key self)) index
                            (encode value) with
       | Ok l => (Ok tt, <[Container.key self := l]> st)
       | Raise e => (Raise e, st)
       end).

(** [self.rpop()] *)
Definition rpop (self : List.t) : ST lists (reply pyobj) :=
  delegated self "rpop"
    (fun st =>
       match RedisList.rpop (elements st (Container.key self)) with
       | (Some x, rest) => (Ok (Str x), <[Container.key self := rest]> st)
       | (None, _) => (Ok None_, st)
       end).

(** [self.lpop()] *)
Definition lpop (self : List.t) : ST lists (reply pyobj) :=
  delegated self "lpop"
    (fun st =>
       match RedisList.lpop (elements st (Container.key self)) with
       | (Some x, rest) => (Ok (Str x), <[Container.key self := rest]> st)
       | (None, _) => (Ok None_, st)
       end).

(** [self.lpush(value)] *)
Definition lpush (self : List.t) (value : pyobj) : ST lists (reply Z) :=
  delegated self "lpush"
    (fun st =>
       let l := RedisList.lpush (elements st (Container.key self))
                                (encode value) in
       (Ok (Redis.llen l), <[Container.key self := l]> st)).

(** [self.rpoplpush(key)] *)
Definition rpoplpush (self : List.t) (key : string)
  : ST lists (reply pyobj) :=
  delegated self "rpoplpush"
    (fun st =>
       let '(r, st') := RedisList.rpoplpush st (Container.key self) key in
       (Ok (bulk r), st')).

Definition __setitem__ (self : List.t) (index : Z) (value : pyobj)
  : ST lists unit :=
  let+ _ := lset self index value in
  step_ret tt.

Definition pop (self : List.t) : ST lists (reply pyobj) :=
  rpop self.

Definition pop_onto (self : List.t) (key : string)
  : ST lists (reply pyobj) :=
  rpoplpush self key.

Definition shift (self : List.t) : ST lists (reply pyobj) :=
  lpop self.

Definition unshift (self : List.t) (value : pyobj) : ST lists unit :=
  let+ _ := lpush self value in
  step_ret tt.

(** [x == value] for an element [x] of [members] and a byte string. *)
Definition equals (value : string) (x : pyobj) : bool :=
  match x with
  | Str s => String.eqb s value
  | _ => false
  end.

(** [list.count] *)
Definition list_count (value : string) (l : list pyobj) : Z :=
  Z.of_nat (length (filter (fun x => equals value x) l)).

(** [list.index]: the first position that holds the value. *)
Fixpoint list_index (value : string) (l : list pyobj) : option nat :=
  match l with
  | [] => None
  | x :: rest =>
      if equals value x then Some O
      else S <$> list_index value rest
  end.

(** [self.members.count(value)] *)
Definition count (self : List.t) (value : string) : ST lists Z :=
  let+ r := untraced (List.all self) in
  let+ members := step_lift (attribute_of "count" r) in
  step_ret (list_count value members).

(** [self.all().index(value)] *)
Definition index (self : List.t) (value : string) : ST lists Z :=
  let+ r := untraced (List.all self) in
  let+ members := step_lift (attribute_of "index" r) in
  match list_index value members with
  | Some i => step_ret (Z.of_nat i)
  | None => step_raise (ValueError (repr value ++ " is not in list"))
  end.

(** [self[:]] passes [slice(None, None, None)]; [r.reverse()] is the
    method of the list the range read returned. *)
Definition reverse (self : List.t) : ST lists unit :=
  let+ r := untraced (List.__getitem__ self (ISlice (Slice None None None))) in
  let+ r := step_lift (attribute_of "reverse" r) in
  let r := rev r in
  let+ _ := clear self in
  untraced (List.extend self r).

(** [List.__iter__]: [self.members.__iter__()], the iterator of the list
    the range read returned, read when the iterator is made. *)
Definition __iter__ (self : List.t) : ST lists (list pyobj) :=
  let+ r := untraced (List.all self) in
  step_lift (attribute_of "__iter__" r).

(** [copy = List(key, self.db)]: the new list is cleared, then [extend]
    iterates the source and pushes what it reads. *)
Definition copy (self : List.t) (key : string) : ST lists List.t :=
  let+ db := step_lift (db_now self) in
  let copy := Container.__init__ key db None in
  let+ _ := clear copy in
  let+ iterable := __iter__ self in
  let+ _ := untraced (List.extend copy iterable) in
  step_ret copy.

End WithExternal.
End ListMore.

(** ** [TypedList.__setitem__] *)

Module TypedListMore.
Section WithExternal.
Context `{E : External}.

Definition __setitem__ (self : TypedList.t) (index : Z) (value : pyobj)
  : ST (gmap string (list string)) unit :=
  let+ v := step_lift (TypedList.typecast_stor self value) in
  ListMore.__setitem__ (TypedList.list_ self) index v.

(** A consumer that takes the first [k] items of a generator and stops,
    as [itertools.islice(g, k)] does. *)
Fixpoint first_items (k : nat) (self : TypedList.t)
    (g : TypedList.generator) : M (list pyobj) :=
  match k with
  | O => ret []
  | S k' =>
      let* r := TypedList.next self g in
      match r with
      | (None, _) => ret []
      | (Some v, g') =>
          let* rest := first_items k' self g' in
          ret (v :: rest)
      end
  end.

(** The caller's [for e in iter: proxy.append(e)] *)
Definition append_each (self : TypedList.t) (iter : list pyobj) : M unit :=
  let* _ := for_each (fun e => TypedList.append self e) iter in
  ret tt.

(** The caller's [proxy[i] = e; proxy[i]] *)
Definition set_then_get (self : TypedList.t) (index : Z) (e : pyobj)
  : ST (gmap string (list string)) pyobj :=
  let+ _ := __setitem__ self index e in
  untraced (TypedList.__getitem__ self (IInt index)).

End WithExternal.
End TypedListMore.

(** ** [class Set(Container)]

    The store holds a set of byte strings under each key of a set; a key
    whose set becomes empty is removed. *)

Module RedisSet.

Abbreviation sets := (gmap string (gset string)).

(** A key that holds nothing is the empty set. *)
Definition smembers (st : sets) (key : string) : gset string :=
  default ∅ (st !! key).

(** What a command leaves under a key. *)
Definition put (st : sets) (key : string) (s : gset string) : sets :=
  if decide (s = ∅) then delete key st else <[key := s]> st.

(** SINTER: the members common to the sets at all the keys. *)
Definition sinter (st : sets) (keys : list string) : gset string :=
  match keys with
  | [] => ∅
  | k :: ks => foldl (fun acc k' => acc ∩ smembers st k') (smembers st k) ks
  end.

(** SUNION *)
Definition sunion (st : sets) (keys : list string) : gset string :=
  foldl (fun acc k' => acc ∪ smembers st k') ∅ keys.

(** SDIFF: the members of the first set that are in none of the others. *)
Definition sdiff (st : sets) (keys : list string) : gset string :=
  match keys with
  | [] => ∅
  | k :: ks => foldl (fun acc k' => acc ∖ smembers st k') (smembers st k) ks
  end.

End RedisSet.

Module Set_.
Section WithExternal.
Context `{E : External}.

Abbreviation sets := (gmap string (gset string)).

Definition t : Type := Container.t.

(** [KeyError], raised with the value; the message is its stored form. *)
Definition KeyError (value : pyobj) : exn :=
  OtherError "KeyError" (encode value).

(** The delegated methods. *)

(** [self.sadd(value)]: the number of members added. *)
Definition sadd (self : t) (value : pyobj) : ST sets (reply Z) :=
  delegated self "sadd"
    (fun st =>
       let s := RedisSet.smembers st (Container.key self) in
       (Ok (if decide (encode value ∈ s) then 0%Z else 1%Z),
        RedisSet.put st (Container.key self) ({[encode value]} ∪ s))).

(** [self.srem(value)]: the number of members removed. *)
Definition srem (self : t) (value : pyobj) : ST sets (reply Z) :=
  delegated self "srem"
    (fun st =>
       let s := RedisSet.smembers st (Container.key self) in
       (Ok (if decide (encode value ∈ s) then 1%Z else 0%Z),
        RedisSet.put st (Container.key self) (s ∖ {[encode value]}))).

Definition scard (self : t) : ST sets (reply Z) :=
  delegated self "scard"
    (fun st =>
       (Ok (Z.of_nat (size (RedisSet.smembers st (Container.key self)))),
        st)).

Definition sismember (self : t) (value : pyobj) : ST sets (reply bool) :=
  delegated self "sismember"
    (fun st =>
       (Ok (bool_decide
              (encode value ∈ RedisSet.smembers st (Container.key self))),
        st)).

(** The commands sent through [self.db]. *)


Definition db_smembers (self : t) (key : string)
  : ST sets (reply (gset string)) :=
  delegated self "smembers" (fun st => (Ok (RedisSet.smembers st key), st)).

Definition db_sunionstore (self : t) (dest : string) (keys : list string)
  : ST sets (reply Z) :=
  delegated self "sunionstore"
    (fun st =>
       let s := RedisSet.sunion st keys in
       (Ok (Z.of_nat (size s)), RedisSet.put st dest s)).

Definition db_sinterstore (self : t) (dest : string) (keys : list string)
  : ST sets (reply Z) :=
  delegated self "sinterstore"
    (fun st =>
       let s := RedisSet.sinter st keys in
       (Ok (Z.of_nat (size s)), RedisSet.put st dest s)).

Definition db_sdiffstore (self : t) (dest : string) (keys : list string)
  : ST sets (reply Z) :=
  delegated self "sdiffstore"
    (fun st =>
       let s := RedisSet.sdiff st keys in
       (Ok (Z.of_nat (size s)), RedisSet.put st dest s)).

(** The truth of a reply that is a number; a pipeline that has buffered
    a command is true. *)
Definition truth (r : reply Z) : bool :=
  match r with
  | Reply n => negb (n =? 0)%Z
  | Queued _ => true
  end.


(** [a == b] for two replies that are sets: a pipeline equals itself
    alone. *)
Definition same (a b : reply (gset string)) : bool :=
  match a, b with
  | Reply x, Reply y => bool_decide (x = y)
  | Queued p, Queued q => handle_is p q
  | _, _ => false
  end.

Definition add (self : t) (value : pyobj) : ST sets unit :=
  let+ _ := sadd self value in
  step_ret tt.

Definition remove (self : t) (value : pyobj) : ST sets unit :=
  let+ n := srem self value in
  if negb (truth n) then step_raise (KeyError value) else step_ret tt.

Definition discard (self : t) (value : pyobj) : ST sets unit :=
  let+ _ := srem self value in
  step_ret tt.

Definition __len__ (self : t) : ST sets (reply Z) :=
  scard self.

Definition __contains__ (self : t) (value : pyobj) : ST sets (reply bool) :=
  sismember self value.

Definition all (self : t) : ST sets (reply (gset string)) :=
  db_smembers self (Container.key self).






Definition __eq__ (self other_set : t) : ST sets bool :=
  if String.eqb (Container.key other_set) (Container.key self)
  then step_ret true
  else
    let+ r := __len__ self in
    let+ slen := step_lift (len r) in
    let+ r := __len__ other_set in
    let+ olen := step_lift (len r) in
    if (olen =? slen)%Z
    then
      let+ mine := all self in
      let+ theirs := all other_set in
      step_ret (same mine theirs)
    else step_ret false.

(** [isinstance(key, str)], or [ValueError] *)
Definition expect_str (key : pyobj) : result string :=
  match key with
  | Str k => Ok k
  | _ => Raise (ValueError "String expected.")
  end.

(** [Set(key, db=self.db)] *)
Definition new_set (self : t) (key : string) : result t :=
  result_map (fun db => Container.__init__ key db None) (db_now self).

Definition union (self : t) (key : pyobj) (others : list t) : ST sets t :=
  let+ k := step_lift (expect_str key) in
  let+ _ := db_sunionstore self k
              (Container.key self :: (Container.key <$> others)) in
  step_lift (new_set self k).

Definition intersection (self : t) (key : pyobj) (others : list t)
  : ST sets t :=
  let+ k := step_lift (expect_str key) in
  let+ _ := db_sinterstore self k
              (Container.key self :: (Container.key <$> others)) in
  step_lift (new_set self k).

Definition difference (self : t) (key : pyobj) (others : list t)
  : ST sets t :=
  let+ k := step_lift (expect_str key) in
  let+ _ := db_sdiffstore self k
              (Container.key self :: (Container.key <$> others)) in
  step_lift (new_set self k).

Definition update (self : t) (other_sets : list t) : ST sets unit :=
  let+ _ := db_sunionstore self (Container.key self)
              (Container.key self :: (Container.key <$> other_sets)) in
  step_ret tt.

Definition __ior__ (self other_set : t) : ST sets t :=
  let+ _ := db_sunionstore self (Container.key self)
              [Container.key self; Container.key other_set] in
  step_ret self.

Definition __iand__ (self other_set : t) : ST sets t :=
  let+ _ := db_sinterstore self (Container.key self)
              [Container.key self; Container.key other_set] in
  step_ret self.

Definition __isub__ (self other_set : t) : ST sets t :=
  let+ _ := db_sdiffstore self (Container.key self)
              [Container.key self; Container.key other_set] in
  step_ret self.

(** [copy = Set(key=key, db=self.db); copy.clear(); copy |= self] *)
Definition copy (self : t) (key : string) : ST sets t :=
  let+ copy := step_lift (new_set self key) in
  let+ _ := clear copy in
  __ior__ copy self.

End WithExternal.
End Set_.

(** ** [class Hash(Container, collections.MutableMapping)]

    The store holds a map from field names to byte strings under each key
    of a hash; a key whose hash becomes empty is removed. *)

Module Hash.
Section WithExternal.
Context `{E : External}.

Abbreviation hashes := (gmap string (gmap string string)).

Definition t : Type := Container.t.

(** A key that holds nothing is the empty hash. *)
Definition fields (st : hashes) (key : string) : gmap string string :=
  default ∅ (st !! key).

(** The delegated methods. *)

Definition hget (self : t) (att : string) : ST hashes (reply pyobj) :=
  delegated self "hget"
    (fun st =>
       (Ok (ListMore.bulk (fields st (Container.key self) !! att)), st)).

(** [self.hset(att, val)]: 1 for a new field, 0 for one that was there. *)
Definition hset (self : t) (att : string) (val : pyobj)
  : ST hashes (reply Z) :=
  delegated self "hset"
    (fun st =>
       let h := fields st (Container.key self) in
       (Ok (match h !! att with Some _ => 0%Z | None => 1%Z end),
        <[Container.key self := <[att := encode val]> h]> st)).

Definition hdel (self : t) (att : string) : ST hashes (reply Z) :=
  delegated self "hdel"
    (fun st =>
       let h := fields st (Container.key self) in
       (Ok (match h !! att with Some _ => 1%Z | None => 0%Z end),
        if decide (delete att h = ∅)
        then delete (Container.key self) st
        else <[Container.key self := delete att h]> st)).

Definition hlen (self : t) : ST hashes (reply Z) :=
  delegated self "hlen"
    (fun st => (Ok (Z.of_nat (size (fields st (Container.key self)))), st)).

Definition hexists (self : t) (att : string) : ST hashes (reply bool) :=
  delegated self "hexists"
    (fun st =>
       (Ok (bool_decide (is_Some (fields st (Container.key self) !! att))),
        st)).

Definition hgetall (self : t) : ST hashes (reply (gmap string string)) :=
  delegated self "hgetall"
    (fun st => (Ok (fields st (Container.key self)), st)).

Definition __getitem__ (self : t) (att : string) : ST hashes (reply pyobj) :=
  hget self att.

Definition __setitem__ (self : t) (att : string) (val : pyobj)
  : ST hashes unit :=
  let+ _ := hset self att val in
  step_ret tt.

Definition __delitem__ (self : t) (att : string) : ST hashes unit :=
  let+ _ := hdel self att in
  step_ret tt.

Definition __len__ (self : t) : ST hashes (reply Z) :=
  hlen self.

Definition __contains__ (self : t) (att : string) : ST hashes (reply bool) :=
  hexists self att.

Definition _get_dict (self : t) : ST hashes (reply (gmap string string)) :=
  hgetall self.

(** [MutableMapping.update(other)] for a [dict]:
    [for key in other: self[key] = other[key]], in the order the [dict]
    gives its keys. *)
Definition update (self : t) (other : gmap string pyobj) : ST hashes unit :=
  step_for_each (fun kv => __setitem__ self kv.1 kv.2) (map_to_list other).

(** [Container.clear] is found before the mixin's [clear]. *)
Definition _set_dict (self : t) (new_dict : gmap string pyobj)
  : ST hashes unit :=
  let+ _ := clear self in
  update self new_dict.

End WithExternal.
End Hash.

(** ** More of the scenario *)

Module MoreScenario.
Import Scenario.
#[local] Existing Instance toy.

(** The raw lists under the two typed lists. *)
Definition number_list : List.t := TypedList.list_ numbers.
Definition user_list : List.t := TypedList.list_ users.

(** The store of lists of the scenario. *)
Definition lists0 : gmap string (list string) := store world0.

(** Two sets. *)
Definition s1 : Set_.t := Container.__init__ "s1" (Some "conn") None.
Definition s2 : Set_.t := Container.__init__ "s2" (Some "conn") None.

Definition sets0 : gmap string (gset string) :=
  <["s1" := {["a"; "b"; "c"]}]> (<["s2" := {["c"; "d"]}]> ∅).

(** A hash. *)
Definition h1 : Hash.t := Container.__init__ "h1" (Some "conn") None.

Definition hashes0 : gmap string (gmap string string) :=
  <["h1" := <["name" := "ann"]> (<["age" := "7"]> ∅)]> ∅.

End MoreScenario.

(** * Properties *)

(** ** The store commands *)

(** Case analysis on the integer comparisons of the goal. *)
Ltac zcases :=
  match goal with
  | |- context [(?a <? ?b)%Z] => destruct (Z.ltb_spec a b)
  | |- context [(?a <=? ?b)%Z] => destruct (Z.leb_spec a b)
  | |- context [(?a =? ?b)%Z] => destruct (Z.eqb_spec a b)
  end.

Section RedisFacts.

(** [LRANGE key 0 -1] is the whole list. *)
Lemma lrange_whole (l : list string) : Redis.lrange l 0 (-1) = l.
Proof.
  destruct l as [|x l]; [reflexivity|].
  unfold Redis.lrange, Redis.llen.
  cbn [length]. set (n := Z.of_nat (S (length l))).
  assert (Hn : (n = Z.of_nat (length l) + 1)%Z) by (subst n; lia).
  cbv zeta. change (0 <? 0)%Z with false. change (-1 <? 0)%Z with true.
  cbv iota. change (0 <? 0)%Z with false. cbv iota.
  repeat zcases; cbn [orb]; try lia.
  change (Z.to_nat 0) with 0%nat. rewrite drop_0.
  apply take_ge. cbn [length]. lia.
Qed.

(** [LINDEX] at a position of the list. *)
Lemma lindex_in_range (l : list string) (i : nat) :
  Redis.lindex l (Z.of_nat i) = l !! i.
Proof.
  unfold Redis.lindex.
  destruct (Z.of_nat i <? 0)%Z eqn:H1; [apply Z.ltb_lt in H1; lia|].
  rewrite H1. by rewrite Nat2Z.id.
Qed.

(** The last position after a push holds the pushed value. *)
Lemma lindex_last (l : list string) (v : string) :
  Redis.lindex (Redis.rpush l v) (Redis.llen (Redis.rpush l v) - 1) = Some v.
Proof.
  unfold Redis.rpush, Redis.llen. rewrite length_app. cbn [length].
  replace (Z.of_nat (length l + 1) - 1)%Z with (Z.of_nat (length l)) by lia.
  rewrite lindex_in_range.
  rewrite lookup_app_r by lia. by rewrite Nat.sub_diag.
Qed.

(** [LRANGE] between two positions of the list replies with both ends. *)
Lemma lrange_inclusive (l : list string) (a b : Z) :
  (0 <= a)%Z -> (a <= b)%Z -> (b < Redis.llen l)%Z ->
  Redis.lrange l a b
  = take (Z.to_nat (b - a + 1)) (drop (Z.to_nat a) l).
Proof.
  intros Ha Hab Hb. unfold Redis.lrange.
  destruct (a <? 0)%Z eqn:H1; [apply Z.ltb_lt in H1; lia|].
  destruct (b <? 0)%Z eqn:H2; [apply Z.ltb_lt in H2; lia|].
  rewrite H1.
  destruct (b <? a)%Z eqn:H3; [apply Z.ltb_lt in H3; lia|].
  destruct (Redis.llen l <=? a)%Z eqn:H4; [apply Z.leb_le in H4; lia|].
  destruct (Redis.llen l <=? b)%Z eqn:H5; [apply Z.leb_le in H5; lia|].
  reflexivity.
Qed.

End RedisFacts.

(** ** What the execution context resolves to *)

Section DispatchFacts.
Context `{E : External}.
Implicit Types (self : Container.t).

(** On a direct connection every method of the client is found. *)
Lemma connected_method self (att : string) :
  connected self = true -> exists h, method self att = Ok (Client h).
Proof.
  unfold connected, method.
  destruct (db_now self) as [[h|]|e]; try discriminate.
  intros Hp. exists h. apply negb_true_iff in Hp. by rewrite Hp.
Qed.

Lemma connected_db_now self :
  connected self = true ->
  exists h, db_now self = Ok (Some h) /\ is_pipeline h = false.
Proof.
  unfold connected.
  destruct (db_now self) as [[h|]|e]; try discriminate.
  intros Hp. exists h. by apply negb_true_iff in Hp.
Qed.

(** A container built on a client is on a direct connection. *)
Lemma connected_init (key : string) (h : handle) :
  is_pipeline h = false ->
  connected (Container.__init__ key (Some h) None) = true.
Proof. intros Hp. unfold connected, db_now. cbn. by rewrite Hp. Qed.

(** Only the key and the context of a container matter to [connected]. *)
Lemma connected_same_db self (key : string) (h : handle) :
  db_now self = Ok (Some h) -> connected self = true ->
  connected (Container.__init__ key (Some h) None) = true.
Proof.
  intros Hdb Hc. destruct (connected_db_now self Hc) as (h' & Hdb' & Hp).
  rewrite Hdb in Hdb'. injection Hdb' as <-. by apply connected_init.
Qed.

(** A pipeline buffers: the method is found and nothing runs. *)
Lemma pipeline_method self (p : handle) (att : string) :
  Container.pipeline self = Some p -> is_pipeline p = true ->
  method self att = Ok (Pipeline p).
Proof.
  intros Hp Hq. unfold method, db_now, Container.db. rewrite Hp. cbn.
  by rewrite Hq.
Qed.

End DispatchFacts.

(** ** How the calls of [List] run on a direct connection *)

Section ListFacts.
Context `{E : External}.
Implicit Types (self : List.t) (w : world).

Lemma List_lrange_run self w (a b : Z) :
  connected self = true ->
  List.lrange self a b w
  = (Ok (Reply (Str <$> Redis.lrange (elements (store w) (Container.key self))
                                     a b)),
     logged w [EvCommand (LRANGE (Container.key self) a b)]).
Proof.
  intros Hc. destruct (connected_method self "lrange" Hc) as [h Hm].
  unfold List.lrange, bind, lift. by rewrite Hm.
Qed.

Lemma List_all_run self w :
  connected self = true ->
  List.all self w
  = (Ok (Reply (Str <$> elements (store w) (Container.key self))),
     logged w [EvCommand (LRANGE (Container.key self) 0 (-1))]).
Proof.
  intros Hc. unfold List.all. rewrite List_lrange_run by done.
  by rewrite lrange_whole.
Qed.

Lemma List_len_run self w :
  connected self = true ->
  List.__len__ self w
  = (Ok (Reply (Redis.llen (elements (store w) (Container.key self)))),
     logged w [EvCommand (LLEN (Container.key self))]).
Proof.
  intros Hc. destruct (connected_method self "llen" Hc) as [h Hm].
  unfold List.__len__, List.llen, bind, lift. by rewrite Hm.
Qed.

Lemma List_getitem_int_run self w (i : Z) :
  connected self = true -> is_int i = true ->
  List.__getitem__ self (IInt i) w
  = (Ok (Reply (match Redis.lindex (elements (store w) (Container.key self)) i
                with
                | Some s => Str s
                | None => None_
                end)),
     logged w [EvCommand (LINDEX (Container.key self) i)]).
Proof.
  intros Hc Hi. destruct (connected_method self "lindex" Hc) as [h Hm].
  cbn [List.__getitem__]. rewrite Hi.
  unfold List.lindex, bind, lift. rewrite Hm. cbn. by rewrite Hi.
Qed.

Lemma List_rpush_run self w (value : pyobj) :
  connected self = true ->
  List.rpush self value w
  = (Ok (Reply (Redis.llen (Redis.rpush (elements (store w) (Container.key self))
                                        (encode value)))),
     World (<[Container.key self :=
                Redis.rpush (elements (store w) (Container.key self))
                            (encode value)]> (store w))
           (trace w ++ [EvCommand (RPUSH (Container.key self) value)])).
Proof.
  intros Hc. destruct (connected_method self "rpush" Hc) as [h Hm].
  unfold List.rpush, bind, lift. by rewrite Hm.
Qed.

Lemma logged_logged w (evs evs' : list event) :
  logged (logged w evs) evs' = logged w (evs ++ evs').
Proof. unfold logged; cbn. by rewrite app_assoc. Qed.

Lemma logged_nil w : logged w [] = w.
Proof. destruct w. unfold logged; cbn. by rewrite app_nil_r. Qed.

(** A slice subscript is one length read, the bounds of [slice.indices],
    and one range read between them. *)
Lemma List_getitem_slice_run self w (s : slice) :
  connected self = true ->
  List.__getitem__ self (ISlice s) w
  = match slice_indices s (Redis.llen (elements (store w) (Container.key self)))
    with
    | Ok (lo, hi, _) =>
        (Ok (Reply (Str <$> Redis.lrange (elements (store w) (Container.key self))
                                         lo hi)),
         logged w [EvCommand (LLEN (Container.key self));
                   EvCommand (LRANGE (Container.key self) lo hi)])
    | Raise e => (Raise e, logged w [EvCommand (LLEN (Container.key self))])
    end.
Proof.
  intros Hc. cbn [List.__getitem__]. unfold bind.
  rewrite List_len_run by done. cbn [lift len].
  destruct (slice_indices s _) as [[[lo hi] k]|e]; [|reflexivity].
  cbn [fst snd]. rewrite List_lrange_run by done.
  by rewrite logged_logged.
Qed.

(** Without a context the import of the process-wide connection decides:
    when it fails, so does every command, and nothing is sent. *)
Lemma method_unresolved self (att : string) (e : exn) :
  Container.pipeline self = None -> Container._db self = None ->
  Container.db_cache self = None \/ Container.db_cache self = Some None ->
  redisco_connection = Raise e ->
  method self att = Raise e.
Proof.
  intros Hp Hd Hc He. unfold method, db_now, Container.db.
  rewrite Hp, Hd, He. by destruct Hc as [-> | ->].
Qed.

End ListFacts.

(** ** Comprehensions and the two casts *)

Section CastFacts.
Context `{E : External}.
Implicit Types (self : TypedList.t) (w : world).

Lemma comprehension_Ok {A B} (f : A -> result B) (vs : list A) (outs : list B) :
  Forall2 (fun v o => f v = Ok o) vs outs ->
  comprehension f vs = Ok outs.
Proof.
  induction 1 as [|v o vs outs Hv _ IH]; [reflexivity|].
  cbn. rewrite Hv. cbn. by rewrite IH.
Qed.

Lemma comprehension_Raise {A B} (f : A -> result B)
    (pre : list A) (v : A) (post : list A) (outs : list B) (e : exn) :
  Forall2 (fun v o => f v = Ok o) pre outs ->
  f v = Raise e ->
  comprehension f (pre ++ v :: post) = Raise e.
Proof.
  intros Hpre Hv.
  induction Hpre as [|a o pre outs Ha _ IH]; cbn.
  - by rewrite Hv.
  - rewrite Ha. cbn. by rewrite IH.
Qed.


Lemma TypedList_all_run self w :
  connected (TypedList.list_ self) = true ->
  TypedList.all self w
  = (TypedList.typecast_iter self
       (Str <$> elements (store w) (Container.key (TypedList.list_ self))),
     logged w [EvCommand (LRANGE (Container.key (TypedList.list_ self)) 0 (-1))]).
Proof.
  intros Hc. unfold TypedList.all, bind. rewrite List_all_run by done.
  reflexivity.
Qed.

Lemma TypedList_len_run self w :
  connected (TypedList.list_ self) = true ->
  TypedList.__len__ self w
  = (Ok (Redis.llen (elements (store w)
                              (Container.key (TypedList.list_ self)))),
     logged w [EvCommand (LLEN (Container.key (TypedList.list_ self)))]).
Proof.
  intros Hc. unfold TypedList.__len__, bind. by rewrite List_len_run.
Qed.

Lemma TypedList_getitem_int_run self w (i : Z) :
  connected (TypedList.list_ self) = true -> is_int i = true ->
  TypedList.__getitem__ self (IInt i) w
  = (TypedList.typecast_item self
       (match Redis.lindex
                (elements (store w) (Container.key (TypedList.list_ self))) i
        with
        | Some s => Str s
        | None => None_
        end),
     logged w [EvCommand (LINDEX (Container.key (TypedList.list_ self)) i)]).
Proof.
  intros Hc Hi. unfold TypedList.__getitem__, bind.
  rewrite List_getitem_int_run by done. reflexivity.
Qed.

(** Positions of a list the store can hold are [int]s. *)
Lemma is_int_position (n : Z) (i : Z) :
  is_int n = true -> (0 <= i <= n)%Z -> is_int i = true.
Proof.
  unfold is_int. intros Hn Hi.
  apply andb_true_iff in Hn as [H1 H2].
  apply Z.leb_le in H1. apply Z.ltb_lt in H2.
  apply andb_true_iff. split; [apply Z.leb_le | apply Z.ltb_lt]; lia.
Qed.

End CastFacts.

(** ** Reading through the proxy *)

Section Reads.
Context `{E : External}.
Implicit Types (self : TypedList.t) (w : world).




(** C7, as the code has it. On a direct connection [len(proxy)] is the
    number of stored elements, the reply to the underlying list's length
    read, whatever the mode; in domain-entity mode [all()] is never longer,
    and it is shorter as soon as one stored identifier does not resolve. *)
Theorem len_is_the_stored_count self w :
  connected (TypedList.list_ self) = true ->
  let key := Container.key (TypedList.list_ self) in
  let l := elements (store w) key in
  TypedList.__len__ self w
    = (Ok (Z.of_nat (length l)), logged w [EvCommand (LLEN key)])
  /\ List.__len__ (TypedList.list_ self) w
     = (Ok (Reply (Z.of_nat (length l))), logged w [EvCommand (LLEN key)])
  /\ (TypedList._redisco_model self = true ->
      exists xs,
        (TypedList.all self w).1 = Ok xs
        /\ (length xs <= length l)%nat
        /\ (forall v, v ∈ l ->
              get_by_id (TypedList.klass self) (Str v) = None_ ->
              (length xs < length l)%nat)).
Proof.
  intros Hc key l. split; [|split].
  - by rewrite TypedList_len_run.
  - by rewrite List_len_run.
  - intros Hmode. rewrite TypedList_all_run by done. cbn [fst].
    unfold TypedList.typecast_iter. rewrite Hmode. fold key l.
    eexists. split; [reflexivity|]. split.
    + etrans; [apply length_filter|]. by rewrite !length_fmap.
    + intros v Hv Hnone.
      assert (Hlen : length (get_by_id (TypedList.klass self) <$> (Str <$> l))
                     = length l) by (by rewrite !length_fmap).
      rewrite <- Hlen.
      apply (length_filter_lt _ _ (get_by_id (TypedList.klass self) (Str v))).
      * apply list_elem_of_fmap. exists (Str v). split; [done|].
        apply list_elem_of_fmap. by exists v.
      * rewrite Hnone. cbn. tauto.
Qed.

End Reads.

(** ** Iterating the proxy *)

Section Iteration.
Context `{E : External}.
Implicit Types (self : TypedList.t) (w : world).

(** The first [next] reads the length, then steps to position 0. *)
Lemma next_created_run self w :
  connected (TypedList.list_ self) = true ->
  TypedList.next self TypedList.Created w
  = TypedList.iter_step self 0
      (Redis.llen (elements (store w) (Container.key (TypedList.list_ self))))
      (logged w [EvCommand (LLEN (Container.key (TypedList.list_ self)))]).
Proof.
  intros Hc. cbn [TypedList.next]. unfold bind.
  by rewrite List_len_run by done.
Qed.

(** A step inside the bound is one indexed read and its cast. *)
Lemma iter_step_run self w (i : nat) (l : list string) (x : string) :
  connected (TypedList.list_ self) = true ->
  is_int (Redis.llen l) = true ->
  elements (store w) (Container.key (TypedList.list_ self)) = l ->
  l !! i = Some x ->
  TypedList.iter_step self (Z.of_nat i) (Redis.llen l) w
  = match TypedList.typecast_item self (Str x) with
    | Ok v =>
        (Ok (Some v, TypedList.Suspended (Z.of_nat i) (Redis.llen l)),
         logged w [EvCommand (LINDEX (Container.key (TypedList.list_ self))
                                     (Z.of_nat i))])
    | Raise e =>
        (Raise e,
         logged w [EvCommand (LINDEX (Container.key (TypedList.list_ self))
                                     (Z.of_nat i))])
    end.
Proof.
  intros Hc Hint Hl Hx.
  assert (Hi : (i < length l)%nat) by (by eapply lookup_lt_Some).
  unfold TypedList.iter_step, Redis.llen.
  destruct (Z.ltb_spec (Z.of_nat i) (Z.of_nat (length l))); [|lia].
  unfold bind. rewrite TypedList_getitem_int_run; [| done |].
  - rewrite Hl, lindex_in_range, Hx.
    by destruct (TypedList.typecast_item self (Str x)).
  - apply (is_int_position (Redis.llen l)); [done|]. unfold Redis.llen. lia.
Qed.

(** A step at the bound ends the generator and reads nothing. *)
Lemma iter_step_end self w (i n : Z) :
  (n <= i)%Z ->
  TypedList.iter_step self i n w = (Ok (None, TypedList.Finished), w).
Proof.
  intros Hi. unfold TypedList.iter_step.
  by destruct (Z.ltb_spec i n); [lia|].
Qed.

(** A generator suspended at position [i] yields, when drained, the cast
    of every later position, one request each. *)
Lemma drain_suspended self (l : list string) (k : nat) :
  connected (TypedList.list_ self) = true ->
  is_int (Redis.llen l) = true ->
  forall (i fuel : nat) w,
    elements (store w) (Container.key (TypedList.list_ self)) = l ->
    (S i + k = length l)%nat ->
    (k < fuel)%nat ->
    exists evs,
      TypedList.drain fuel self
        (TypedList.Suspended (Z.of_nat i) (Redis.llen l)) w
      = (result_map Some
           (comprehension (TypedList.typecast_item self)
                          (Str <$> drop (S i) l)),
         logged w evs)
      /\ (forall xs,
            comprehension (TypedList.typecast_item self)
                          (Str <$> drop (S i) l) = Ok xs ->
            evs = requests (Container.key (TypedList.list_ self)) (S i) k).
Proof.
  intros Hc Hint.
  induction k as [|k IH]; intros i fuel w Hl Hik Hfuel;
    (destruct fuel as [|fuel]; [lia|]).
  - exists []. rewrite logged_nil.
    rewrite drop_ge by lia. split; [|reflexivity].
    cbn [TypedList.drain TypedList.next]. unfold bind.
    rewrite iter_step_end by (unfold Redis.llen; lia). reflexivity.
  - destruct (lookup_lt_is_Some_2 l (S i)) as [x Hx]; [lia|].
    rewrite (drop_S _ _ _ Hx). cbn [fmap list_fmap comprehension].
    cbn [TypedList.drain TypedList.next].
    replace (Z.of_nat i + 1)%Z with (Z.of_nat (S i)) by lia.
    unfold bind at 1. rewrite (iter_step_run self w (S i) l x) by done.
    destruct (TypedList.typecast_item self (Str x)) as [v|e] eqn:Hv.
    + cbn [result_bind].
      destruct (IH (S i) fuel
                  (logged w [EvCommand
                     (LINDEX (Container.key (TypedList.list_ self))
                             (Z.of_nat (S i)))]))
        as (evs & Hrun & Hevs); [exact Hl | lia | lia |].
      eexists. split.
      * unfold bind. rewrite Hrun.
        destruct (comprehension _ _) as [xs|e]; cbn;
          by rewrite logged_logged.
      * intros xs Hxs.
        destruct (comprehension _ _) as [ys|e]; cbn in Hxs; [|discriminate].
        rewrite (Hevs ys eq_refl). reflexivity.
    + cbn. eexists. split; [reflexivity|]. intros xs [=].
Qed.

(** Draining a fresh generator: one length read, then the cast of every
    position. *)
Lemma iterate_run self w (fuel : nat) :
  let key := Container.key (TypedList.list_ self) in
  let l := elements (store w) key in
  connected (TypedList.list_ self) = true ->
  is_int (Redis.llen l) = true ->
  (length l < fuel)%nat ->
  exists evs,
    TypedList.iterate fuel self w
    = (result_map Some
         (comprehension (TypedList.typecast_item self) (Str <$> l)),
       logged w (EvCommand (LLEN key) :: evs))
    /\ (forall xs,
          comprehension (TypedList.typecast_item self) (Str <$> l) = Ok xs ->
          evs = requests key 0 (length l)).
Proof.
  intros key l Hc Hint Hfuel. destruct fuel as [|fuel]; [lia|].
  unfold TypedList.iterate, TypedList.__iter__.
  cbn [TypedList.drain].
  unfold bind at 1. rewrite next_created_run by done. fold key l.
  destruct l as [|x l'] eqn:Hl.
  - exists []. split; [|reflexivity].
    rewrite iter_step_end by (unfold Redis.llen; cbn [length]; lia).
    reflexivity.
  - change 0%Z with (Z.of_nat 0).
    rewrite (iter_step_run self _ 0 (x :: l') x); [| done | done | | done].
    2: { change (store (logged w [EvCommand (LLEN key)])) with (store w).
         exact Hl. }
    cbn [fmap list_fmap comprehension].
    destruct (TypedList.typecast_item self (Str x)) as [v|e] eqn:Hv.
    + cbn [result_bind].
      destruct (drain_suspended self (x :: l') (length l') Hc Hint 0 fuel
                  (logged (logged w [EvCommand (LLEN key)])
                          [EvCommand (LINDEX key (Z.of_nat 0))]))
        as (evs & Hrun & Hevs);
        [exact Hl | reflexivity | cbn in Hfuel; lia |].
      exists (EvCommand (LINDEX key (Z.of_nat 0)) :: evs). split.
      * unfold bind. fold key. rewrite Hrun. cbn [drop]. rewrite drop_0.
        destruct (comprehension _ _) as [xs|e]; cbn;
          by rewrite !logged_logged.
      * intros xs Hxs. cbn [drop] in Hevs. rewrite drop_0 in Hevs.
        destruct (comprehension _ _) as [ys|e]; cbn in Hxs; [|discriminate].
        rewrite (Hevs ys eq_refl). reflexivity.
    + cbn. exists [EvCommand (LINDEX key (Z.of_nat 0))].
      split; [by rewrite logged_logged|]. intros xs [=].
Qed.

End Iteration.

Section IterationClaims.
Context `{E : External}.
Implicit Types (self : TypedList.t) (w : world).

Lemma comprehension_ext {A B} (f g : A -> result B) (vs : list A) :
  (forall v, f v = g v) -> comprehension f vs = comprehension g vs.
Proof.
  intros Hfg. induction vs as [|v vs IH]; [reflexivity|].
  cbn. by rewrite Hfg, IH.
Qed.

Lemma comprehension_total {A B} (f : A -> B) (vs : list A) :
  comprehension (fun v => Ok (f v)) vs = Ok (f <$> vs).
Proof.
  induction vs as [|v vs IH]; [reflexivity|]. cbn. by rewrite IH.
Qed.

(** In plain mode the bulk cast is the cast of each item. *)
Lemma typecast_iter_plain self (vs : list pyobj) :
  TypedList._redisco_model self = false ->
  TypedList.typecast_iter self vs
  = comprehension (TypedList.typecast_item self) vs.
Proof.
  intros Hmode. unfold TypedList.typecast_iter. rewrite Hmode.
  apply comprehension_ext. intros v.
  unfold TypedList.typecast_item. by rewrite Hmode.
Qed.

(** In domain-entity mode the cast of each item is the registry's answer. *)
Lemma typecast_item_model self (vs : list pyobj) :
  TypedList._redisco_model self = true ->
  comprehension (TypedList.typecast_item self) vs
  = Ok (get_by_id (TypedList.klass self) <$> vs).
Proof.
  intros Hmode. rewrite <- comprehension_total.
  apply comprehension_ext. intros v.
  unfold TypedList.typecast_item. by rewrite Hmode.
Qed.

(** C3, as the code has it. On a direct connection, iteration reads the
    length once, then requests and casts every position on its own. In
    plain mode it yields what [all()] returns, or raises what [all()]
    raises. In domain-entity mode it yields the registry's answer for every
    position, [None] included, and [all()] is that sequence without the
    [None]s. *)
Theorem iteration_casts_each_position self w (fuel : nat) :
  let key := Container.key (TypedList.list_ self) in
  let l := elements (store w) key in
  connected (TypedList.list_ self) = true ->
  is_int (Redis.llen l) = true ->
  (length l < fuel)%nat ->
  (TypedList._redisco_model self = false ->
     (TypedList.iterate fuel self w).1
     = result_map Some (TypedList.all self w).1)
  /\ (TypedList._redisco_model self = true ->
      exists xs,
        (TypedList.iterate fuel self w).1 = Ok (Some xs)
        /\ xs = (get_by_id (TypedList.klass self) <$> (Str <$> l))
        /\ (TypedList.all self w).1
           = Ok (filter (fun o => is_not_None o) xs))
  /\ (forall xs w',
        TypedList.iterate fuel self w = (Ok (Some xs), w') ->
        w' = logged w (EvCommand (LLEN key) :: requests key 0 (length l))).
Proof.
  intros key l Hc Hint Hfuel.
  destruct (iterate_run self w fuel Hc Hint Hfuel) as (evs & Hrun & Hevs).
  fold key l in Hrun, Hevs.
  split; [|split].
  - intros Hmode. rewrite Hrun, TypedList_all_run by done. cbn [fst].
    by rewrite typecast_iter_plain.
  - intros Hmode. eexists. split; [|split; [reflexivity|]].
    + rewrite Hrun. cbn [fst]. by rewrite typecast_item_model.
    + rewrite TypedList_all_run by done. cbn [fst].
      unfold TypedList.typecast_iter. by rewrite Hmode.
  - intros xs w' Hxs. rewrite Hrun in Hxs.
    destruct (comprehension _ _) as [ys|e]; cbn in Hxs; [|discriminate].
    injection Hxs as _ <-. by rewrite (Hevs ys eq_refl).
Qed.

End IterationClaims.

(** Iterating the [users] of the scenario yields [None] for the stale
    identifier that [all()] drops: the two sequences differ. *)
Lemma iteration_yields_the_sentinel :
  ~ (forall xs,
       (TypedList.iterate 4 Scenario.users Scenario.world0).1 = Ok (Some xs) ->
       (TypedList.all Scenario.users Scenario.world0).1 = Ok xs).
Proof.
  intros Hsame. specialize (Hsame _ eq_refl).
  vm_compute in Hsame. discriminate Hsame.
Qed.

Lemma iteration_casts_each_position_witness :
  (length (elements (store Scenario.world0) "users") < 4)%nat
  /\ (TypedList.iterate 4 Scenario.users Scenario.world0).1
     = Ok (Some [Inst "a"; None_; Inst "c"])
  /\ (TypedList.all Scenario.users Scenario.world0).1
     = Ok [Inst "a"; Inst "c"].
Proof.
  assert (Hlen : (length (elements (store Scenario.world0) "users") < 4)%nat)
    by (vm_compute; lia).
  split; [exact Hlen|].
  destruct (iteration_casts_each_position Scenario.users Scenario.world0 4
              eq_refl eq_refl Hlen)
    as (_ & Hmodel & _).
  destruct (Hmodel eq_refl) as (xs & Hiter & -> & Hall).
  split; [exact Hiter | exact Hall].
Defined.

(** ** Writing through the proxy *)

Section Writes.
Context `{E : External}.
Implicit Types (self : TypedList.t) (w : world).

Lemma elements_insert (st : gmap string (list string)) (key : string)
    (l : list string) :
  elements (<[key := l]> st) key = l.
Proof. unfold elements. by rewrite lookup_insert_eq. Qed.

Lemma for_each_cons {A B} (f : A -> M B) (v : A) (rest : list A) w :
  for_each f (v :: rest) w
  = match f v w with
    | (Ok b, w1) =>
        match for_each f rest w1 with
        | (Ok bs, w2) => (Ok (b :: bs), w2)
        | (Raise e, w2) => (Raise e, w2)
        end
    | (Raise e, w1) => (Raise e, w1)
    end.
Proof.
  cbn [for_each]. unfold bind, ret.
  destruct (f v w) as [[b|e] w1]; [|reflexivity].
  by destruct (for_each f rest w1) as [[bs|e] w2].
Qed.

(** Pushing values one by one adds them, in order, at the tail. *)
Lemma for_each_rpush_run (self : List.t) (values : list pyobj) :
  connected self = true ->
  forall w, exists bs w',
    for_each (fun i => List.rpush self i) values w = (Ok bs, w')
    /\ elements (store w') (Container.key self)
       = elements (store w) (Container.key self) ++ (encode <$> values)
    /\ (forall key', key' <> Container.key self ->
          store w' !! key' = store w !! key')
    /\ trace w'
       = trace w
         ++ ((fun v => EvCommand (RPUSH (Container.key self) v)) <$> values).
Proof.
  intros Hc.
  induction values as [|v values IH]; intros w.
  - exists [], w. cbn. by rewrite !app_nil_r.
  - rewrite for_each_cons, List_rpush_run by done.
    destruct (IH (World (<[Container.key self :=
                 Redis.rpush (elements (store w) (Container.key self))
                             (encode v)]> (store w))
              (trace w ++ [EvCommand (RPUSH (Container.key self) v)])))
      as (bs & w' & Hrun & Hel & Hother & Htr).
    rewrite Hrun. eexists _, w'. split; [reflexivity|]. split; [|split].
    + rewrite Hel. cbn [store]. rewrite elements_insert.
      unfold Redis.rpush. by rewrite <- app_assoc.
    + intros key' Hkey. rewrite Hother by done. cbn [store].
      by rewrite lookup_insert_ne.
    + rewrite Htr. cbn [trace]. by rewrite <- app_assoc.
Qed.

Lemma List_extend_run (self : List.t) (values : list pyobj) w :
  connected self = true ->
  exists w',
    List.extend self values w = (Ok tt, w')
    /\ elements (store w') (Container.key self)
       = elements (store w) (Container.key self) ++ (encode <$> values)
    /\ (forall key', key' <> Container.key self ->
          store w' !! key' = store w !! key')
    /\ trace w'
       = trace w
         ++ ((fun v => EvCommand (RPUSH (Container.key self) v)) <$> values).
Proof.
  intros Hc.
  destruct (for_each_rpush_run self values Hc w) as (bs & w' & Hrun & Hrest).
  exists w'. split; [|exact Hrest].
  unfold List.extend, bind. by rewrite Hrun.
Qed.

(** [append] is the push of the transformed element, whatever the context
    does with the push; when the transform raises, nothing is sent. *)
Lemma TypedList_append_as_rpush self w (x : pyobj) :
  TypedList.append self x w
  = match TypedList.typecast_stor self x with
    | Ok v =>
        match List.rpush (TypedList.list_ self) v w with
        | (Ok _, w1) => (Ok tt, w1)
        | (Raise e, w1) => (Raise e, w1)
        end
    | Raise e => (Raise e, w)
    end.
Proof.
  unfold TypedList.append, List.append, bind, lift.
  destruct (TypedList.typecast_stor self x) as [v|e]; [|reflexivity].
  by destruct (List.rpush (TypedList.list_ self) v w) as [[n|e] w1].
Qed.

(** On a direct connection [append] pushes the transformed element. *)
Lemma TypedList_append_run self w (x : pyobj) :
  connected (TypedList.list_ self) = true ->
  TypedList.append self x w
  = match TypedList.typecast_stor self x with
    | Ok v =>
        (Ok tt,
         World (<[Container.key (TypedList.list_ self) :=
                    Redis.rpush
                      (elements (store w)
                                (Container.key (TypedList.list_ self)))
                      (encode v)]> (store w))
               (trace w ++ [EvCommand
                  (RPUSH (Container.key (TypedList.list_ self)) v)]))
    | Raise e => (Raise e, w)
    end.
Proof.
  intros Hc. rewrite TypedList_append_as_rpush.
  destruct (TypedList.typecast_stor self x); [|reflexivity].
  by rewrite List_rpush_run.
Qed.

(** C5, as the code has it. On a direct connection, after
    [proxy.append(e)], the read [proxy[len(proxy) - 1]] gives, in
    domain-entity mode, what the registry holds under the identifier of
    [e], an entity with that identifier; in plain mode, the cast of the
    stored form of [e], a value equal to [e]. *)
Theorem append_then_read_last self w (e : pyobj) :
  let program := TypedList.append_then_last self e in
  let l := elements (store w) (Container.key (TypedList.list_ self)) in
  connected (TypedList.list_ self) = true ->
  is_int (Redis.llen l) = true ->
  (TypedList._redisco_model self = true ->
   forall ident found,
     TypedList.getattr_id e = Ok ident ->
     get_by_id (TypedList.klass self) (Str (encode ident)) = found ->
     TypedList.getattr_id found = Ok ident ->
     (program w).1 = Ok found
     /\ TypedList.getattr_id found = TypedList.getattr_id e)
  /\ (TypedList._redisco_model self = false ->
      call (TypedList.klass self)
           (Str (encode e) :: TypedList._klass_args self)
           (TypedList._klass_kwargs self) = Ok e ->
      (program w).1 = Ok e).
Proof.
  intros program l Hc Hint.
  assert (Hrun : forall v r,
    TypedList.typecast_stor self e = Ok v ->
    TypedList.typecast_item self (Str (encode v)) = r ->
    (program w).1 = r).
  { intros v r Hstor Hitem. subst program.
    unfold TypedList.append_then_last, bind.
    rewrite TypedList_append_run, Hstor by done.
    rewrite TypedList_len_run by done. cbn [store]. rewrite elements_insert.
    fold l.
    assert (Hlast : (Redis.llen (Redis.rpush l (encode v)) - 1)%Z
                    = Redis.llen l).
    { unfold Redis.rpush, Redis.llen. rewrite length_app. cbn [length]. lia. }
    rewrite TypedList_getitem_int_run; [| done | by rewrite Hlast].
    unfold logged. cbn [store fst].
    rewrite elements_insert. fold l. rewrite lindex_last. exact Hitem. }
  split.
  - intros Hmode ident found Hid Hfound Hback. split; [|congruence].
    apply (Hrun ident).
    + unfold TypedList.typecast_stor. by rewrite Hmode.
    + unfold TypedList.typecast_item. by rewrite Hmode, Hfound.
  - intros Hmode Hcast. apply (Hrun e).
    + unfold TypedList.typecast_stor. by rewrite Hmode.
    + unfold TypedList.typecast_item. by rewrite Hmode.
Qed.

(** C8. [extend] applies the write transform to every element and hands
    the transformed elements, in the order given, to one call of the
    underlying list's [extend]; on a direct connection that call adds them
    at the tail. *)
Theorem extend_forwards_in_order self w (iter stored : list pyobj) :
  Forall2 (fun x v => TypedList.typecast_stor self x = Ok v) iter stored ->
  let key := Container.key (TypedList.list_ self) in
  (TypedList._redisco_model self = false -> stored = iter)
  /\ (TypedList._redisco_model self = true ->
      Forall2 (fun x v => TypedList.getattr_id x = Ok v) iter stored)
  /\ TypedList.extend self iter w
     = List.extend (TypedList.list_ self) stored w
  /\ (connected (TypedList.list_ self) = true ->
      exists w',
        TypedList.extend self iter w = (Ok tt, w')
        /\ elements (store w') key
           = elements (store w) key ++ (encode <$> stored)
        /\ (forall key', key' <> key -> store w' !! key' = store w !! key')
        /\ trace w'
           = trace w ++ ((fun v => EvCommand (RPUSH key v)) <$> stored)).
Proof.
  intros Hstor key.
  assert (Hfwd : TypedList.extend self iter w
                 = List.extend (TypedList.list_ self) stored w).
  { unfold TypedList.extend, bind at 1, lift.
    by rewrite (comprehension_Ok _ _ _ Hstor). }
  split; [|split; [|split]].
  - intros Hmode. clear Hfwd. unfold TypedList.typecast_stor in Hstor.
    rewrite Hmode in Hstor.
    induction Hstor as [|x v xs vs Hxv _ IH]; [reflexivity|].
    injection Hxv as ->. by rewrite IH.
  - intros Hmode. unfold TypedList.typecast_stor in Hstor.
    by rewrite Hmode in Hstor.
  - exact Hfwd.
  - intros Hc. rewrite Hfwd. by apply List_extend_run.
Qed.

End Writes.

(** ** What the calls send out *)

Section CommandsOnly.
Context `{E : External}.
Implicit Types (self : TypedList.t) (w : world).

Lemma commands_only_lift {A} (r : result A) : commands_only (lift r).
Proof. intros w. exists []. cbn. by rewrite app_nil_r. Qed.

Lemma commands_only_ret {A} (a : A) : commands_only (ret a).
Proof. apply (commands_only_lift (Ok a)). Qed.

Lemma commands_only_raise {A} (e : exn) : commands_only (raise (A := A) e).
Proof. apply (commands_only_lift (Raise e)). Qed.

Lemma commands_only_emit (c : command) : commands_only (emit (EvCommand c)).
Proof. intros w. exists [EvCommand c]. cbn. by repeat constructor. Qed.

Lemma commands_only_read (key : string) : commands_only (read key).
Proof. intros w. exists []. cbn. by rewrite app_nil_r. Qed.

Lemma commands_only_write (key : string) (l : list string) :
  commands_only (write key l).
Proof. intros w. exists []. cbn. by rewrite app_nil_r. Qed.

Lemma commands_only_bind {A B} (m : M A) (k : A -> M B) :
  commands_only m -> (forall a, commands_only (k a)) ->
  commands_only (bind m k).
Proof.
  intros Hm Hk w. unfold bind.
  destruct (Hm w) as (evs & Htr & Hevs).
  destruct (m w) as [[a|e] w1]; cbn in Htr.
  - destruct (Hk a w1) as (evs' & Htr' & Hevs').
    exists (evs ++ evs'). rewrite Htr', Htr, app_assoc.
    split; [reflexivity|]. by apply Forall_app.
  - exists evs. by split.
Qed.

Lemma commands_only_for_each {A B} (f : A -> M B) (values : list A) :
  (forall v, commands_only (f v)) -> commands_only (for_each f values).
Proof.
  intros Hf. induction values as [|v values IH]; cbn [for_each].
  - apply commands_only_ret.
  - apply commands_only_bind; [apply Hf|]. intros b.
    apply commands_only_bind; [apply IH|]. intros bs.
    apply commands_only_ret.
Qed.

Lemma commands_only_on_context {A} (db : context) (run : M A) :
  commands_only run -> commands_only (on_context db run).
Proof.
  intros Hrun. destruct db as [h|p]; cbn [on_context].
  - apply commands_only_bind; [exact Hrun|]. intros a. apply commands_only_ret.
  - apply commands_only_ret.
Qed.

Create HintDb quiet.
Hint Resolve commands_only_lift commands_only_ret commands_only_raise
  commands_only_emit commands_only_read commands_only_write
  commands_only_for_each : quiet.

(** Split a sequence of calls and close the leaves. *)
Ltac quiet :=
  repeat (first [ apply commands_only_bind; [|intros ?]
                | apply commands_only_on_context
                | solve [auto with quiet] ]).

Lemma commands_only_lrange (l : List.t) (a b : Z) :
  commands_only (List.lrange l a b).
Proof. unfold List.lrange. quiet. Qed.

Lemma commands_only_llen (l : List.t) : commands_only (List.llen l).
Proof. unfold List.llen. quiet. Qed.

Lemma commands_only_lindex (l : List.t) (i : Z) :
  commands_only (List.lindex l i).
Proof. unfold List.lindex. destruct (is_int i); quiet. Qed.

Lemma commands_only_rpush (l : List.t) (v : pyobj) :
  commands_only (List.rpush l v).
Proof. unfold List.rpush. quiet. Qed.

Hint Resolve commands_only_lrange commands_only_llen commands_only_lindex
  commands_only_rpush : quiet.

Lemma commands_only_List_getitem (l : List.t) (index : Py.index) :
  commands_only (List.__getitem__ l index).
Proof.
  destruct index as [i|s|]; cbn [List.__getitem__].
  - destruct (is_int i); auto with quiet.
  - unfold List.__len__.
    apply commands_only_bind; [apply commands_only_llen|]. intros r.
    apply commands_only_bind; [apply commands_only_lift|]. intros n.
    apply commands_only_bind; [apply commands_only_lift|]. intros indices.
    apply commands_only_lrange.
  - apply commands_only_raise.
Qed.

Lemma commands_only_getitem self (index : Py.index) :
  commands_only (TypedList.__getitem__ self index).
Proof.
  unfold TypedList.__getitem__.
  apply commands_only_bind; [apply commands_only_List_getitem|].
  intros val. destruct index; apply commands_only_lift.
Qed.

Lemma commands_only_drain self (fuel : nat) (g : TypedList.generator) :
  commands_only (TypedList.drain fuel self g).
Proof.
  revert g. induction fuel as [|fuel IH]; intros g; cbn [TypedList.drain].
  - apply commands_only_ret.
  - apply commands_only_bind.
    + assert (Hstep : forall i n,
                commands_only (TypedList.iter_step self i n)).
      { intros i n. unfold TypedList.iter_step.
        destruct (i <? n)%Z; [|apply commands_only_ret].
        apply commands_only_bind; [apply commands_only_getitem|].
        intros v. apply commands_only_ret. }
      destruct g as [|i n|]; cbn [TypedList.next].
      * apply commands_only_bind; [apply commands_only_llen|].
        intros r. apply commands_only_bind; [apply commands_only_lift|].
        intros n. apply Hstep.
      * apply Hstep.
      * apply commands_only_ret.
    + intros [[v|] g'].
      * apply commands_only_bind; [apply IH|].
        intros rest. apply commands_only_ret.
      * apply commands_only_ret.
Qed.

End CommandsOnly.

(** ** Construction *)

Section Construction.
Context `{E : External}.
Implicit Types (self : TypedList.t) (w : world).

(** C6. A name the registry does not know makes the constructor raise
    after the one lookup, with no command sent to the store. A name it
    knows is looked up once, by the constructor; the calls on the proxy
    send commands and look up no name. *)
Theorem unknown_name_fails_at_construction
    (key name : string) (type_args : list pyobj)
    (type_kwargs : list (string * pyobj)) (db pipeline : option handle) w :
  (get_model_from_key name = None ->
   TypedList.__init__ key (TypedList.Name name) type_args type_kwargs
                      db pipeline w
   = (Raise (ValueError ("Unknown Redisco class " ++ name)),
      logged w [EvResolve name]))
  /\ (forall k m,
        get_model_from_key name = Some k ->
        issubclass_Model k = Ok m ->
        TypedList.__init__ key (TypedList.Name name) type_args type_kwargs
                           db pipeline w
        = (Ok (TypedList.Make (Container.__init__ key db pipeline)
                              k type_args type_kwargs m),
           logged w [EvResolve name]))
  /\ (forall self,
        commands_only (TypedList.all self)
        /\ commands_only (TypedList.__len__ self)
        /\ (forall index, commands_only (TypedList.__getitem__ self index))
        /\ (forall value, commands_only (TypedList.append self value))
        /\ (forall iter, commands_only (TypedList.extend self iter))
        /\ (forall fuel g, commands_only (TypedList.drain fuel self g))).
Proof.
  split; [|split].
  - intros Hnone.
    unfold TypedList.__init__, TypedList.value_type, bind, emit.
    by rewrite Hnone.
  - intros k m Hk Hm.
    unfold TypedList.__init__, TypedList.value_type, bind, emit, lift.
    rewrite Hk. cbn [ret]. by rewrite Hm.
  - intros self. repeat split.
    + unfold TypedList.all, List.all.
      apply commands_only_bind; [apply commands_only_lrange|].
      intros vs. apply commands_only_lift.
    + unfold TypedList.__len__, List.__len__.
      apply commands_only_bind; [apply commands_only_llen|].
      intros r. apply commands_only_lift.
    + apply commands_only_getitem.
    + intros value. unfold TypedList.append, List.append.
      apply commands_only_bind; [apply commands_only_lift|]. intros v.
      apply commands_only_bind; [apply commands_only_rpush|]. intros n.
      apply commands_only_ret.
    + intros iter. unfold TypedList.extend, List.extend.
      apply commands_only_bind; [apply commands_only_lift|]. intros vs.
      apply commands_only_bind; [|intros bs; apply commands_only_ret].
      apply commands_only_for_each. intros v. apply commands_only_rpush.
    + apply commands_only_drain.
Qed.

End Construction.

(** ** The execution context of a container *)

Section Connection.
Context `{E : External}.
Implicit Types (self : Container.t) (connection : result (option handle)).

(** C9. [db] is the pipeline when there is one; else the connection the
    container was given; else the handle cached on the instance; else the
    process-wide connection, which is then cached on the instance, so that
    the later calls return the cached handle whatever the process-wide
    name has become. *)
Theorem db_precedence self connection :
  (forall p, Container.pipeline self = Some p ->
             Container.db connection self = (Ok (Some p), self))
  /\ (forall d, Container.pipeline self = None ->
                Container._db self = Some d ->
                Container.db connection self = (Ok (Some d), self))
  /\ (forall c, Container.pipeline self = None ->
                Container._db self = None ->
                Container.db_cache self = Some (Some c) ->
                Container.db connection self = (Ok (Some c), self))
  /\ (forall c, Container.pipeline self = None ->
                Container._db self = None ->
                Container.db_cache self = None
                \/ Container.db_cache self = Some None ->
                connection = Ok (Some c) ->
                let self' := (Container.db connection self).2 in
                (Container.db connection self).1 = Ok (Some c)
                /\ Container.db_cache self' = Some (Some c)
                /\ Container.pipeline self' = None
                /\ Container._db self' = None
                /\ Container.key self' = Container.key self
                /\ forall connection',
                     Container.db connection' self' = (Ok (Some c), self')).
Proof.
  unfold Container.db. split; [|split; [|split]].
  - by intros p ->.
  - by intros d -> ->.
  - by intros c -> -> ->.
  - intros c Hp Hd Hc ->. rewrite Hp, Hd.
    destruct Hc as [-> | ->]; cbn; rewrite ?Hp, ?Hd; by repeat split.
Qed.

End Connection.

(** ** Slices *)

Section Slices.
Context `{E : External}.
Implicit Types (self : TypedList.t) (w : world).

(** Two positions of the list, in order, are their own bounds. *)
Lemma slice_indices_in_range (a b n : Z) (st : option Z) :
  (0 <= a)%Z -> (a <= b)%Z -> (b < n)%Z -> st <> Some 0%Z ->
  exists k, slice_indices (Slice (Some a) (Some b) st) n = Ok (a, b, k).
Proof.
  intros Ha Hab Hb Hst. unfold slice_indices. cbn [Py.step Py.start Py.stop].
  set (k := match st with Some k => k | None => 1%Z end).
  assert (Hk : k <> 0%Z) by (subst k; destruct st; congruence).
  destruct (Z.eqb_spec k 0); [done|].
  exists k. unfold clamp_bound. cbv zeta.
  rewrite (proj2 (Z.ltb_ge a 0)), (proj2 (Z.ltb_ge b 0)) by lia.
  rewrite (proj2 (Z.ltb_ge a 0)), (proj2 (Z.ltb_ge b 0)) by lia.
  by rewrite (proj2 (Z.leb_gt n a)), (proj2 (Z.leb_gt n b)) by lia.
Qed.

(** A slice of the typed list is the bulk cast of the slice of the list,
    or the exception the list raises. *)
Lemma TypedList_getitem_slice_run self w (s : slice) :
  TypedList.__getitem__ self (ISlice s) w
  = match List.__getitem__ (TypedList.list_ self) (ISlice s) w with
    | (Ok val, w') => (TypedList.typecast_values self val, w')
    | (Raise e, w') => (Raise e, w')
    end.
Proof. reflexivity. Qed.

(** C10, as the code has it. On a direct connection, a slice [a:b]
    between two positions of the list reads the range from [a] to [b] with
    [b] included: the elements [a], ..., [b - 1] that Python's slice
    denotes, then the element at [b]. A step other than zero changes
    nothing; a step of zero raises [ValueError] after the length read and
    before any range read, whatever the bounds. The typed list casts the
    same range in bulk and raises the same exception. *)
Theorem slice_read_includes_stop self w (a b : Z) (st : option Z) :
  let key := Container.key (TypedList.list_ self) in
  let l := elements (store w) key in
  connected (TypedList.list_ self) = true ->
  ((0 <= a)%Z -> (a <= b)%Z -> (b < Redis.llen l)%Z ->
   st <> Some 0%Z ->
   exists x,
     l !! Z.to_nat b = Some x
     /\ List.__getitem__ (TypedList.list_ self)
                         (ISlice (Slice (Some a) (Some b) st)) w
        = (Ok (Reply (Str <$> (take (Z.to_nat (b - a)) (drop (Z.to_nat a) l)
                               ++ [x]))),
           logged w [EvCommand (LLEN key); EvCommand (LRANGE key a b)])
     /\ TypedList.__getitem__ self (ISlice (Slice (Some a) (Some b) st)) w
        = (TypedList.typecast_iter self
             (Str <$> (take (Z.to_nat (b - a)) (drop (Z.to_nat a) l) ++ [x])),
           logged w [EvCommand (LLEN key); EvCommand (LRANGE key a b)]))
  /\ (forall lo hi : option Z,
        List.__getitem__ (TypedList.list_ self)
                         (ISlice (Slice lo hi (Some 0%Z))) w
        = (Raise (ValueError "slice step cannot be zero"),
           logged w [EvCommand (LLEN key)])
        /\ TypedList.__getitem__ self (ISlice (Slice lo hi (Some 0%Z))) w
           = (Raise (ValueError "slice step cannot be zero"),
              logged w [EvCommand (LLEN key)])).
Proof.
  intros key l Hc. split.
  - intros Ha Hab Hb Hst.
    destruct (lookup_lt_is_Some_2 l (Z.to_nat b)) as [x Hx];
      [unfold Redis.llen in Hb; lia|].
    exists x. split; [exact Hx|].
    destruct (slice_indices_in_range a b (Redis.llen l) st Ha Hab Hb Hst)
      as [k Hk].
    assert (Hlist :
      List.__getitem__ (TypedList.list_ self)
                       (ISlice (Slice (Some a) (Some b) st)) w
      = (Ok (Reply (Str <$> (take (Z.to_nat (b - a)) (drop (Z.to_nat a) l)
                             ++ [x]))),
         logged w [EvCommand (LLEN key); EvCommand (LRANGE key a b)])).
    { rewrite List_getitem_slice_run by done. fold key l. rewrite Hk.
      do 4 f_equal.
      rewrite lrange_inclusive by done.
      replace (Z.to_nat (b - a + 1)) with (S (Z.to_nat (b - a))) by lia.
      apply take_S_r. rewrite lookup_drop.
      by replace (Z.to_nat a + Z.to_nat (b - a))%nat with (Z.to_nat b) by lia. }
    split; [exact Hlist|].
    rewrite TypedList_getitem_slice_run, Hlist. reflexivity.
  - intros lo hi.
    assert (Hlist :
      List.__getitem__ (TypedList.list_ self)
                       (ISlice (Slice lo hi (Some 0%Z))) w
      = (Raise (ValueError "slice step cannot be zero"),
         logged w [EvCommand (LLEN key)])).
    { rewrite List_getitem_slice_run by done. reflexivity. }
    split; [exact Hlist|].
    rewrite TypedList_getitem_slice_run, Hlist. reflexivity.
Qed.

End Slices.

(** A slice with step zero raises where the same bounds without a step
    read two elements: the step is looked at. *)
Lemma zero_step_is_not_ignored :
  ~ (forall st : option Z,
       (List.__getitem__ (TypedList.list_ Scenario.numbers)
          (ISlice (Slice (Some 0%Z) (Some 1%Z) st)) Scenario.world0).1
       = (List.__getitem__ (TypedList.list_ Scenario.numbers)
            (ISlice (Slice (Some 0%Z) (Some 1%Z) None)) Scenario.world0).1).
Proof.
  intros Hsame. specialize (Hsame (Some 0%Z)).
  vm_compute in Hsame. discriminate Hsame.
Qed.

(** ** The scenario, through the theorems *)

Section ScenarioRuns.
Import Scenario.
#[local] Existing Instance toy.




(** Through a pipeline [append] only buffers the push, and [len(proxy)]
    raises [TypeError], because the length read returns the pipeline: the
    element is not read back. *)
Lemma append_then_read_raises_on_a_pipeline :
  call int_ [Str (encode (Int 4))] [] = Ok (Int 4)
  /\ TypedList.append_then_last piped_numbers (Int 4) world0
     = (Raise (TypeError "an integer is required"),
        logged world0 [EvCommand (RPUSH "numbers" (Int 4));
                       EvCommand (LLEN "numbers")])
  /\ ~ (TypedList.append_then_last piped_numbers (Int 4) world0).1
       = Ok (Int 4).
Proof. repeat split. intros [=]. Qed.

(** Through a pipeline [len(proxy)] raises [TypeError] on a list of three
    elements: the length read is buffered and returns the pipeline. *)
Lemma len_raises_on_a_pipeline :
  length (elements (store world0) "users") = 3%nat
  /\ List.__len__ (TypedList.list_ piped_users) world0
     = (Ok (Queued "pipe"), logged world0 [EvCommand (LLEN "users")])
  /\ TypedList.__len__ piped_users world0
     = (Raise (TypeError "an integer is required"),
        logged world0 [EvCommand (LLEN "users")])
  /\ ~ (TypedList.__len__ piped_users world0).1 = Ok 3%Z.
Proof. repeat split. intros [=]. Qed.




Lemma len_is_the_stored_count_witness :
  TypedList.__len__ users world0
    = (Ok 3%Z, logged world0 [EvCommand (LLEN "users")])
  /\ exists xs,
       (TypedList.all users world0).1 = Ok xs /\ (length xs < 3)%nat.
Proof.
  destruct (len_is_the_stored_count users world0 eq_refl)
    as (Hlen & _ & Hall).
  split; [exact Hlen|].
  destruct (Hall eq_refl) as (xs & Hxs & _ & Hlt).
  exists xs. split; [exact Hxs|].
  apply (Hlt "b"); [|reflexivity].
  repeat constructor.
Defined.

Lemma append_then_read_last_witness :
  (TypedList.append_then_last users (Inst "a") world0).1 = Ok (Inst "a")
  /\ (TypedList.append_then_last numbers (Int 4) world0).1 = Ok (Int 4).
Proof.
  split.
  - apply (proj1 (append_then_read_last users world0 (Inst "a")
                    eq_refl eq_refl)
             eq_refl (Str "a") (Inst "a") eq_refl eq_refl eq_refl).
  - apply (proj2 (append_then_read_last numbers world0 (Int 4)
                    eq_refl eq_refl) eq_refl).
    reflexivity.
Defined.

Lemma unknown_name_fails_at_construction_witness :
  TypedList.__init__ "users" (TypedList.Name "Nobody") [] [] None None world0
    = (Raise (ValueError "Unknown Redisco class Nobody"),
       logged world0 [EvResolve "Nobody"])
  /\ TypedList.__init__ (E := toy) "users" (TypedList.Name "User") [] []
                        (Some "conn") None world0
     = (Ok users, logged world0 [EvResolve "User"]).
Proof.
  split.
  - apply (proj1 (unknown_name_fails_at_construction
                    "users" "Nobody" [] [] None None world0)).
    reflexivity.
  - apply (proj1 (proj2 (unknown_name_fails_at_construction (E := toy)
                           "users" "User" [] [] (Some "conn") None world0))
             User true); reflexivity.
Defined.

Lemma extend_forwards_in_order_witness :
  TypedList.extend users [Inst "c"; Inst "a"] world0
  = List.extend (TypedList.list_ users) [Str "c"; Str "a"] world0
  /\ exists w',
       TypedList.extend users [Inst "c"; Inst "a"] world0 = (Ok tt, w')
       /\ elements (store w') "users" = ["a"; "b"; "c"; "c"; "a"].
Proof.
  assert (Hstor : Forall2 (fun x v => TypedList.typecast_stor users x = Ok v)
                          [Inst "c"; Inst "a"] [Str "c"; Str "a"])
    by (repeat constructor).
  destruct (extend_forwards_in_order users world0 _ _ Hstor)
    as (_ & _ & Hfwd & Hrun).
  split; [exact Hfwd|].
  destruct (Hrun eq_refl) as (w' & Hext & Hel & _).
  exists w'. split; [exact Hext | exact Hel].
Defined.

Lemma db_precedence_witness :
  (Container.db (E := toy) (Ok (Some "default")) bare).1
    = Ok (Some "default")
  /\ Container.db (E := toy) (Raise (ImportError "connection"))
                  (Container.db (E := toy) (Ok (Some "default")) bare).2
     = (Ok (Some "default"),
        (Container.db (E := toy) (Ok (Some "default")) bare).2).
Proof.
  destruct (proj2 (proj2 (proj2 (db_precedence (E := toy) bare
                                   (Ok (Some "default")))))
              "default" eq_refl eq_refl (or_introl eq_refl) eq_refl)
    as (Hfirst & _ & _ & _ & _ & Hlater).
  split; [exact Hfirst | apply Hlater].
Defined.

Lemma slice_read_includes_stop_witness :
  TypedList.__getitem__ numbers
    (ISlice (Slice (Some 0%Z) (Some 1%Z) None)) world0
  = (Ok [Int 1; Int 2],
     logged world0 [EvCommand (LLEN "numbers");
                    EvCommand (LRANGE "numbers" 0 1)])
  /\ TypedList.__getitem__ numbers
       (ISlice (Slice (Some 0%Z) (Some 1%Z) (Some 0%Z))) world0
     = (Raise (ValueError "slice step cannot be zero"),
        logged world0 [EvCommand (LLEN "numbers")]).
Proof.
  destruct (slice_read_includes_stop numbers world0 0 1 None eq_refl)
    as (Hrange & Hzero).
  split.
  - destruct Hrange as (x & Hx & _ & Hread);
      [lia | lia | vm_compute; reflexivity | discriminate |].
    injection Hx as <-. exact Hread.
  - apply (Hzero (Some 0%Z) (Some 1%Z)).
Defined.

(** The scenario of the stale identifier: three stored, two returned. *)
Example len_exceeds_all :
  (TypedList.__len__ users world0).1 = Ok 3%Z
  /\ (TypedList.all users world0).1 = Ok [Inst "a"; Inst "c"].
Proof. split; reflexivity. Qed.

(** The scenario of the numbers: cast on the way out, stored as text. *)
Example numbers_after_append :
  (let* _ := TypedList.append numbers (Int 4) in
   TypedList.all numbers) world0
  = (Ok [Int 1; Int 2; Int 3; Int 4],
     World (<["numbers" := ["1"; "2"; "3"; "4"]]> (store world0))
           [EvCommand (RPUSH "numbers" (Int 4));
            EvCommand (LRANGE "numbers" 0 (-1))]).
Proof. vm_compute. reflexivity. Qed.

(** The same calls through a pipeline reach the pipeline alone: the store
    is as it was. *)
Example pipeline_leaves_the_store :
  store (TypedList.append piped_numbers (Int 4) world0).2 = store world0
  /\ (TypedList.append piped_numbers (Int 4) world0).1 = Ok tt
  /\ (List.all (TypedList.list_ piped_numbers) world0).1
     = Ok (Queued "pipe").
Proof. repeat split. Qed.

End ScenarioRuns.


(** * More of the containers *)

(** ** Subscripts of the list *)

Section Subscripts.
Context `{E : External}.
Implicit Types (self : TypedList.t) (w : world).

(** With a step that counts upwards, both bounds lie between 0 and the
    length. *)
Lemma clamp_bound_range (k n b : Z) :
  (0 < k)%Z -> (0 <= n)%Z ->
  (0 <= clamp_bound k n b <= n)%Z.
Proof.
  intros Hk Hn. unfold clamp_bound. cbv zeta.
  rewrite (proj2 (Z.ltb_ge k 0)) by lia.
  destruct (Z.ltb_spec b 0);
    repeat match goal with
           | |- context [(?x <? ?y)%Z] => destruct (Z.ltb_spec x y)
           | |- context [(?x <=? ?y)%Z] => destruct (Z.leb_spec x y)
           end; lia.
Qed.

Lemma slice_indices_range (s : slice) (n lo hi k : Z) :
  (0 <= n)%Z ->
  slice_indices s n = Ok (lo, hi, k) -> (0 < k)%Z ->
  (0 <= lo <= n)%Z /\ (0 <= hi <= n)%Z.
Proof.
  intros Hn Hs Hk. unfold slice_indices in Hs.
  destruct (Z.eqb_spec (match step s with Some k0 => k0 | None => 1%Z end) 0);
    [discriminate|].
  injection Hs as <- <- Hk'. rewrite Hk'.
  rewrite (proj2 (Z.ltb_ge k 0)) by lia.
  split.
  - destruct (start s); [by apply clamp_bound_range | lia].
  - destruct (stop s); [by apply clamp_bound_range | lia].
Qed.

(** Between two bounds inside the list, LRANGE replies with Python's slice
    and, when the upper bound is a position, the element there. *)
Lemma lrange_as_slice (l : list string) (lo hi : Z) :
  (0 <= lo <= Redis.llen l)%Z -> (0 <= hi <= Redis.llen l)%Z ->
  Redis.lrange l lo hi
  = take (Z.to_nat (hi - lo)) (drop (Z.to_nat lo) l)
    ++ (if (lo <=? hi)%Z then option_list (l !! Z.to_nat hi) else []).
Proof.
  intros Hlo Hhi.
  destruct (Z.leb_spec lo hi) as [Hle|Hlt].
  - destruct (Z.eq_dec lo (Redis.llen l)) as [->|Hne].
    + assert (hi = Redis.llen l) as -> by lia.
      unfold Redis.lrange. cbv zeta.
      rewrite (proj2 (Z.ltb_ge (Redis.llen l) 0)) by lia.
      rewrite (proj2 (Z.ltb_ge (Redis.llen l) 0)) by lia.
      rewrite (proj2 (Z.leb_le (Redis.llen l) (Redis.llen l))) by lia.
      rewrite orb_true_r, Z.sub_diag. cbn [Z.to_nat take app].
      unfold Redis.llen. rewrite Nat2Z.id.
      by rewrite lookup_ge_None_2 by lia.
    + destruct (Z.eq_dec hi (Redis.llen l)) as [->|Hne'].
      * unfold Redis.lrange. cbv zeta.
        rewrite (proj2 (Z.ltb_ge lo 0)) by lia.
        rewrite (proj2 (Z.ltb_ge (Redis.llen l) 0)) by lia.
        rewrite (proj2 (Z.ltb_ge lo 0)) by lia.
        rewrite (proj2 (Z.ltb_ge (Redis.llen l) lo)) by lia.
        rewrite (proj2 (Z.leb_gt (Redis.llen l) lo)) by lia.
        rewrite (proj2 (Z.leb_le (Redis.llen l) (Redis.llen l))) by lia.
        cbn [orb].
        replace (Redis.llen l - 1 - lo + 1)%Z with (Redis.llen l - lo)%Z by lia.
        unfold Redis.llen. rewrite Nat2Z.id.
        rewrite lookup_ge_None_2 by lia. cbn [option_list].
        by rewrite app_nil_r.
      * rewrite lrange_inclusive by lia.
        destruct (lookup_lt_is_Some_2 l (Z.to_nat hi)) as [x Hx];
          [unfold Redis.llen in *; lia|].
        rewrite Hx. cbn [option_list].
        replace (Z.to_nat (hi - lo + 1)) with (S (Z.to_nat (hi - lo))) by lia.
        apply take_S_r. rewrite lookup_drop.
        by replace (Z.to_nat lo + Z.to_nat (hi - lo))%nat
          with (Z.to_nat hi) by lia.
  - unfold Redis.lrange. cbv zeta.
    rewrite (proj2 (Z.ltb_ge lo 0)) by lia.
    rewrite (proj2 (Z.ltb_ge hi 0)) by lia.
    rewrite (proj2 (Z.ltb_ge lo 0)) by lia.
    rewrite (proj2 (Z.ltb_lt hi lo)) by lia. cbn [orb].
    replace (Z.to_nat (hi - lo)) with 0%nat by lia. reflexivity.
Qed.

(** An upward slice is one length read and the range between the bounds
    of [slice.indices], the upper one included when it is a position. *)
Lemma upward_slice_run (l0 : List.t) w (s : slice) (lo hi k : Z) :
  let l := elements (store w) (Container.key l0) in
  connected l0 = true ->
  slice_indices s (Redis.llen l) = Ok (lo, hi, k) ->
  (0 < k)%Z ->
  List.__getitem__ l0 (ISlice s) w
  = (Ok (Reply (Str <$> (take (Z.to_nat (hi - lo)) (drop (Z.to_nat lo) l)
                         ++ (if (lo <=? hi)%Z
                             then option_list (l !! Z.to_nat hi)
                             else [])))),
     logged w [EvCommand (LLEN (Container.key l0));
               EvCommand (LRANGE (Container.key l0) lo hi)]).
Proof.
  intros l Hc Hs Hk. rewrite List_getitem_slice_run by done. fold l.
  rewrite Hs.
  destruct (slice_indices_range s (Redis.llen l) lo hi k) as [Hlo Hhi];
    [unfold Redis.llen; lia | done | done |].
  by rewrite lrange_as_slice.
Qed.

(** X1. On a direct connection, with a step that is absent or positive, a
    slice subscript of the list returns Python's [l[lo:hi]] for the bounds
    [slice.indices] gives, the step left aside, followed by the element at
    [hi] when [hi] is a position of the list at or after [lo]. *)
Theorem slice_reads_one_past_the_stop (l0 : List.t) w (s : slice)
    (lo hi k : Z) :
  let l := elements (store w) (Container.key l0) in
  connected l0 = true ->
  slice_indices s (Redis.llen l) = Ok (lo, hi, k) ->
  (0 < k)%Z ->
  List.__getitem__ l0 (ISlice s) w
  = (Ok (Reply (Str <$> (take (Z.to_nat (hi - lo)) (drop (Z.to_nat lo) l)
                         ++ (if (lo <=? hi)%Z
                             then option_list (l !! Z.to_nat hi)
                             else [])))),
     logged w [EvCommand (LLEN (Container.key l0));
               EvCommand (LRANGE (Container.key l0) lo hi)]).
Proof.
  intros l Hc Hs Hk.
  assert (Hn : (0 <= Redis.llen l)%Z) by (unfold Redis.llen; lia).
  destruct (slice_indices_range s (Redis.llen l) lo hi k Hn Hs Hk)
    as [Hlo Hhi].
  rewrite List_getitem_slice_run by done. fold l. rewrite Hs.
  by rewrite lrange_as_slice.
Qed.

(** X2. On a direct connection a slice without a stop, [proxy[a:]], is
    Python's slice: the stored elements from the start bound on, cast in
    bulk. Without a start either, [proxy[:]] is what [all()] returns. *)
Theorem open_slice_is_the_tail self w (a st : option Z) :
  let key := Container.key (TypedList.list_ self) in
  let l := elements (store w) key in
  let n := Redis.llen l in
  let lo := match a with
            | None => 0%Z
            | Some a =>
                Z.max 0 (Z.min n (if (a <? 0)%Z then (a + n)%Z else a))
            end in
  connected (TypedList.list_ self) = true ->
  match st with Some k => (0 < k)%Z | None => True end ->
  (List.__getitem__ (TypedList.list_ self) (ISlice (Slice a None st)) w).1
    = Ok (Reply (Str <$> drop (Z.to_nat lo) l))
  /\ (TypedList.__getitem__ self (ISlice (Slice a None st)) w).1
     = TypedList.typecast_iter self (Str <$> drop (Z.to_nat lo) l)
  /\ (a = None ->
      (TypedList.__getitem__ self (ISlice (Slice None None st)) w).1
      = (TypedList.all self w).1).
Proof.
  intros key l n lo Hc Hst.
  set (k := match st with Some k => k | None => 1%Z end).
  assert (Hk : (0 < k)%Z) by (subst k; destruct st; lia).
  assert (Hn : (0 <= n)%Z) by (subst n; unfold Redis.llen; lia).
  assert (Hs : slice_indices (Slice a None st) n = Ok (lo, n, k)).
  { unfold slice_indices. cbn [Py.step Py.start Py.stop]. fold k.
    rewrite (proj2 (Z.eqb_neq k 0)) by lia.
    rewrite (proj2 (Z.ltb_ge k 0)) by lia.
    do 3 f_equal. subst lo. destruct a as [a|]; [|reflexivity].
    unfold clamp_bound. cbv zeta. rewrite (proj2 (Z.ltb_ge k 0)) by lia.
    destruct (Z.ltb_spec a 0);
      repeat match goal with
             | |- context [(?x <? ?y)%Z] => destruct (Z.ltb_spec x y)
             | |- context [(?x <=? ?y)%Z] => destruct (Z.leb_spec x y)
             end; lia. }
  assert (Hlo : (0 <= lo <= n)%Z) by (subst lo; destruct a; lia).
  assert (Hlist :
    List.__getitem__ (TypedList.list_ self) (ISlice (Slice a None st)) w
    = (Ok (Reply (Str <$> drop (Z.to_nat lo) l)),
       logged w [EvCommand (LLEN key); EvCommand (LRANGE key lo n)])).
  { rewrite (upward_slice_run _ w _ lo n k Hc Hs Hk).
    fold key l n. do 4 f_equal.
    rewrite (proj2 (Z.leb_le lo n)) by lia.
    subst n. unfold Redis.llen. rewrite Nat2Z.id.
    rewrite lookup_ge_None_2 by lia. cbn [option_list].
    rewrite app_nil_r. apply take_ge. rewrite length_drop.
    unfold Redis.llen in Hlo. lia. }
  split; [by rewrite Hlist|]. split.
  - rewrite TypedList_getitem_slice_run, Hlist. reflexivity.
  - intros ->. rewrite TypedList_getitem_slice_run, Hlist.
    rewrite TypedList_all_run by done. subst lo. cbn [fst].
    by rewrite drop_0.
Qed.

(** An index outside the list holds nothing. *)
Lemma lindex_outside (l : list string) (i : Z) :
  (Redis.llen l <= i)%Z \/ (i < - Redis.llen l)%Z ->
  Redis.lindex l i = None.
Proof.
  intros Hi. unfold Redis.lindex. cbv zeta.
  destruct (Z.ltb_spec i 0).
  - rewrite (proj2 (Z.ltb_lt (Redis.llen l + i) 0)); [done|].
    unfold Redis.llen in *. lia.
  - rewrite (proj2 (Z.ltb_ge i 0)) by lia.
    apply lookup_ge_None_2. unfold Redis.llen in *. lia.
Qed.

(** X3. On a direct connection an [int] subscript outside the list does
    not raise: the list returns [None], and the typed list hands that
    [None] to the cast. *)
Theorem subscript_outside_reads_None self w (i : Z) :
  let key := Container.key (TypedList.list_ self) in
  let n := Redis.llen (elements (store w) key) in
  connected (TypedList.list_ self) = true ->
  is_int i = true ->
  (n <= i)%Z \/ (i < - n)%Z ->
  List.__getitem__ (TypedList.list_ self) (IInt i) w
    = (Ok (Reply None_), logged w [EvCommand (LINDEX key i)])
  /\ TypedList.__getitem__ self (IInt i) w
     = (TypedList.typecast_item self None_,
        logged w [EvCommand (LINDEX key i)]).
Proof.
  intros key n Hc Hint Hi.
  assert (Hnil : Redis.lindex (elements (store w) key) i = None)
    by (by apply lindex_outside).
  split.
  - rewrite List_getitem_int_run by done. fold key. by rewrite Hnil.
  - rewrite TypedList_getitem_int_run by done. fold key. by rewrite Hnil.
Qed.

Lemma comprehension_Ok_inv {A B} (f : A -> result B)
    (vs : list A) (outs : list B) :
  comprehension f vs = Ok outs ->
  Forall2 (fun v o => f v = Ok o) vs outs.
Proof.
  revert outs. induction vs as [|v vs IH]; intros outs; cbn.
  - intros [= <-]. constructor.
  - destruct (f v) as [b|e] eqn:Hv; cbn; [|discriminate].
    destruct (comprehension f vs) as [bs|e]; cbn; [|discriminate].
    intros [= <-]. constructor; [exact Hv | by apply IH].
Qed.

(** X4. On a direct connection, in plain mode, an [int] subscript inside
    the list, negative ones counting from the tail, returns the element
    [all()] has at that position. *)
Theorem subscript_agrees_with_all self w (i : Z) (xs : list pyobj) :
  let key := Container.key (TypedList.list_ self) in
  let n := Redis.llen (elements (store w) key) in
  connected (TypedList.list_ self) = true ->
  is_int i = true ->
  TypedList._redisco_model self = false ->
  (TypedList.all self w).1 = Ok xs ->
  (- n <= i < n)%Z ->
  exists x,
    xs !! Z.to_nat (if (i <? 0)%Z then (n + i)%Z else i) = Some x
    /\ (TypedList.__getitem__ self (IInt i) w).1 = Ok x.
Proof.
  intros key n Hc Hint Hmode Hall Hi.
  rewrite TypedList_all_run in Hall by done. cbn [fst] in Hall.
  fold key in Hall.
  rewrite typecast_iter_plain in Hall by done.
  set (j := if (i <? 0)%Z then (n + i)%Z else i).
  assert (Hj : (0 <= j < n)%Z) by (subst j; destruct (Z.ltb_spec i 0); lia).
  assert (Hidx : Redis.lindex (elements (store w) key) i
                 = elements (store w) key !! Z.to_nat j).
  { unfold Redis.lindex. fold n. cbv zeta. fold j.
    by rewrite (proj2 (Z.ltb_ge j 0)) by lia. }
  destruct (lookup_lt_is_Some_2 (elements (store w) key) (Z.to_nat j))
    as [v Hv]; [subst n; unfold Redis.llen in *; lia|].
  apply comprehension_Ok_inv in Hall.
  assert (Hv' : ((Str : string -> pyobj) <$> elements (store w) key)
                  !! Z.to_nat j
                = Some (Str v)) by (by rewrite list_lookup_fmap, Hv).
  destruct (Forall2_lookup_l _ _ _ _ _ Hall Hv') as (x & Hx & Hcast).
  exists x. split; [exact Hx|].
  rewrite TypedList_getitem_int_run by done. fold key. rewrite Hidx, Hv.
  exact Hcast.
Qed.

End Subscripts.

(** ** Writing through the proxy, element by element or in bulk *)

Section BulkWrites.
Context `{E : External}.
Implicit Types (self : TypedList.t) (w : world).

(** Appending the elements one by one sends the pushes [extend] sends,
    and ends as they end, whatever the context does with a push. *)
Lemma for_each_append_as_rpush self (iter stored : list pyobj) :
  Forall2 (fun x v => TypedList.typecast_stor self x = Ok v) iter stored ->
  forall w,
    match for_each (fun i => List.rpush (TypedList.list_ self) i) stored w with
    | (Ok _, w') =>
        exists us,
          for_each (fun e => TypedList.append self e) iter w = (Ok us, w')
    | (Raise e, w') =>
        for_each (fun e => TypedList.append self e) iter w = (Raise e, w')
    end.
Proof.
  induction 1 as [|x v iter stored Hxv _ IH]; intros w.
  - by exists [].
  - rewrite !for_each_cons, TypedList_append_as_rpush, Hxv.
    destruct (List.rpush (TypedList.list_ self) v w) as [[n|e] w1];
      [|reflexivity].
    specialize (IH w1).
    destruct (for_each (fun i => List.rpush (TypedList.list_ self) i)
                       stored w1) as [[bs|e] w2].
    + destruct IH as [us ->]. by eexists.
    + by rewrite IH.
Qed.

(** X5. When the write transform succeeds on every element, [extend] does
    to the store, and sends to it, exactly what appending the elements one
    by one does. *)
Theorem extend_is_append_each self w (iter stored : list pyobj) :
  Forall2 (fun x v => TypedList.typecast_stor self x = Ok v) iter stored ->
  TypedList.extend self iter w = TypedListMore.append_each self iter w.
Proof.
  intros Hstor.
  pose proof (for_each_append_as_rpush self iter stored Hstor w) as Hrun.
  unfold TypedListMore.append_each, TypedList.extend, List.extend.
  unfold bind at 1 3, lift. rewrite (comprehension_Ok _ _ _ Hstor).
  unfold bind.
  destruct (for_each (fun i => List.rpush _ i) stored w) as [[bs|e] w1].
  - destruct Hrun as [us ->]. reflexivity.
  - by rewrite Hrun.
Qed.

(** One by one, the elements before the one without an [id] are stored. *)
Lemma for_each_append_stops self
    (pre : list pyobj) (x : pyobj) (post stored : list pyobj) (e : exn) :
  connected (TypedList.list_ self) = true ->
  Forall2 (fun y v => TypedList.typecast_stor self y = Ok v) pre stored ->
  TypedList.typecast_stor self x = Raise e ->
  forall w, exists w',
    for_each (fun y => TypedList.append self y) (pre ++ x :: post) w
    = (Raise e, w')
    /\ elements (store w') (Container.key (TypedList.list_ self))
       = elements (store w) (Container.key (TypedList.list_ self))
         ++ (encode <$> stored).
Proof.
  intros Hc Hpre Hx.
  induction Hpre as [|y v pre stored Hy _ IH]; intros w; cbn [app].
  - rewrite for_each_cons, TypedList_append_run, Hx by done.
    exists w. by rewrite app_nil_r.
  - rewrite for_each_cons, TypedList_append_run, Hy by done.
    match goal with
    | |- context [for_each _ (pre ++ x :: post) ?w1] =>
        destruct (IH w1) as (w' & Hrun & Hel)
    end.
    rewrite Hrun. exists w'. split; [reflexivity|].
    rewrite Hel. cbn [store]. rewrite elements_insert.
    unfold Redis.rpush. by rewrite <- app_assoc.
Qed.

(** X6. In domain-entity mode, when an element of the iterable has no
    [id], [extend] raises before it writes: nothing is stored and nothing
    is sent, although the elements before it had an [id]. On a direct
    connection, appending one by one stores those elements before it
    raises. *)
Theorem extend_writes_all_or_nothing self w
    (pre : list pyobj) (x : pyobj) (post stored : list pyobj) (e : exn) :
  TypedList._redisco_model self = true ->
  Forall2 (fun y v => TypedList.getattr_id y = Ok v) pre stored ->
  TypedList.getattr_id x = Raise e ->
  let key := Container.key (TypedList.list_ self) in
  TypedList.extend self (pre ++ x :: post) w = (Raise e, w)
  /\ (connected (TypedList.list_ self) = true ->
      (TypedListMore.append_each self (pre ++ x :: post) w).1 = Raise e
      /\ elements
           (store (TypedListMore.append_each self (pre ++ x :: post) w).2) key
         = elements (store w) key ++ (encode <$> stored)).
Proof.
  intros Hmode Hpre Hx key.
  assert (Hstor : forall y, TypedList.typecast_stor self y
                            = TypedList.getattr_id y).
  { intros y. unfold TypedList.typecast_stor. by rewrite Hmode. }
  assert (Hpre' : Forall2 (fun y v => TypedList.typecast_stor self y = Ok v)
                          pre stored).
  { eapply Forall2_impl; [exact Hpre|]. intros y v Hy. by rewrite Hstor. }
  assert (Hx' : TypedList.typecast_stor self x = Raise e)
    by (by rewrite Hstor).
  split.
  - unfold TypedList.extend, bind, lift.
    by rewrite (comprehension_Raise _ pre x post stored e).
  - intros Hc.
    destruct (for_each_append_stops self pre x post stored e Hc Hpre' Hx' w)
      as (w' & Hrun & Hel).
    unfold TypedListMore.append_each, bind. rewrite Hrun. by split.
Qed.

End BulkWrites.

(** ** The execution context, once resolved *)

Section MoreConnection.
Context `{E : External}.
Implicit Types (self : Container.t) (connection : result (option handle)).

(** X7. [db] changes nothing of the instance but [db_cache], and asking
    again under the same process-wide connection gives the same answer and
    leaves the instance as the first call left it. *)
Theorem db_settles self connection :
  let r := Container.db connection self in
  Container.key r.2 = Container.key self
  /\ Container._db r.2 = Container._db self
  /\ Container.pipeline r.2 = Container.pipeline self
  /\ Container.db connection r.2 = r.
Proof.
  unfold Container.db.
  destruct self as [d k p c]. cbn [Container.pipeline Container._db
    Container.key Container.db_cache].
  destruct p as [p|]; [done|]. destruct d as [d|]; [done|].
  destruct c as [[c|]|]; [done| |];
    (destruct connection as [[h|]|e]; done).
Qed.

(** X8. A container without pipeline, connection and cached handle caches
    nothing it can use when the import fails or gives [None]: a failed
    import leaves the instance as it was, and after an import of [None]
    the next call imports again and returns what the import gives then. *)
Theorem unusable_default_is_not_cached self :
  Container.pipeline self = None ->
  Container._db self = None ->
  Container.db_cache self = None \/ Container.db_cache self = Some None ->
  (forall e, Container.db (Raise e) self = (Raise e, self))
  /\ (Container.db (Ok None) self).1 = Ok None
  /\ (forall connection,
        (Container.db connection (Container.db (Ok None) self).2).1
        = connection).
Proof.
  intros Hp Hd Hc. unfold Container.db. rewrite Hp, Hd.
  destruct Hc as [-> | ->]; cbn; rewrite ?Hp, ?Hd;
    (split; [done|]; split; [done|]);
    by intros [c|e].
Qed.

End MoreConnection.

(** ** Stopping the iteration early *)

Section EarlyStop.
Context `{E : External}.
Implicit Types (self : TypedList.t) (w : world).

Lemma first_items_suspended self (l : list string) (k : nat) :
  connected (TypedList.list_ self) = true ->
  is_int (Redis.llen l) = true ->
  forall (i : nat) w (outs : list pyobj),
    elements (store w) (Container.key (TypedList.list_ self)) = l ->
    (S i + k <= length l)%nat ->
    Forall2 (fun v o => TypedList.typecast_item self (Str v) = Ok o)
            (take k (drop (S i) l)) outs ->
    TypedListMore.first_items k self
      (TypedList.Suspended (Z.of_nat i) (Redis.llen l)) w
    = (Ok outs,
       logged w (requests (Container.key (TypedList.list_ self)) (S i) k)).
Proof.
  intros Hc Hint.
  induction k as [|k IH]; intros i w outs Hl Hik Houts.
  - cbn in Houts. apply Forall2_nil_inv_l in Houts as ->.
    cbn. by rewrite logged_nil.
  - destruct (lookup_lt_is_Some_2 l (S i)) as [x Hx]; [lia|].
    rewrite (drop_S _ _ _ Hx) in Houts. cbn [take] in Houts.
    apply Forall2_cons_inv_l in Houts as (o & outs' & Ho & Houts' & ->).
    cbn [TypedListMore.first_items TypedList.next].
    replace (Z.of_nat i + 1)%Z with (Z.of_nat (S i)) by lia.
    unfold bind at 1. rewrite (iter_step_run self w (S i) l x) by done.
    rewrite Ho.
    unfold bind. rewrite (IH (S i) _ outs'); [| exact Hl | lia | exact Houts'].
    cbn [ret]. by rewrite logged_logged.
Qed.

(** X9. On a direct connection, a consumer that takes the first [k + 1]
    items of the iteration and stops gets the casts of the first [k + 1]
    stored elements and has sent one length read and [k + 1] indexed
    reads: the elements it did not ask for are neither read nor cast. *)
Theorem early_stop_reads_what_it_takes self w (k : nat) (outs : list pyobj) :
  let key := Container.key (TypedList.list_ self) in
  let l := elements (store w) key in
  connected (TypedList.list_ self) = true ->
  is_int (Redis.llen l) = true ->
  (S k <= length l)%nat ->
  Forall2 (fun v o => TypedList.typecast_item self (Str v) = Ok o)
          (take (S k) l) outs ->
  TypedListMore.first_items (S k) self (TypedList.__iter__ self) w
  = (Ok outs, logged w (EvCommand (LLEN key) :: requests key 0 (S k))).
Proof.
  intros key l Hc Hint Hk Houts.
  destruct l as [|x l'] eqn:Hl; [cbn in Hk; lia|].
  cbn [take] in Houts.
  apply Forall2_cons_inv_l in Houts as (o & outs' & Ho & Houts' & ->).
  unfold TypedList.__iter__.
  cbn [TypedListMore.first_items].
  unfold bind at 1. rewrite next_created_run by done. fold key. fold l.
  rewrite Hl. change 0%Z with (Z.of_nat 0).
  rewrite (iter_step_run self _ 0 (x :: l') x); [| done | done | | done].
  2: { change (store (logged w [EvCommand (LLEN key)])) with (store w).
       exact Hl. }
  rewrite Ho. unfold bind. fold key.
  rewrite (first_items_suspended self (x :: l') k Hc Hint 0 _ outs');
    [| exact Hl | cbn in *; lia | cbn [drop]; by rewrite drop_0].
  cbn [ret]. by rewrite !logged_logged.
Qed.

End EarlyStop.

(** ** The other methods of the list *)

Section StoreSteps.
Context `{E : External}.
Implicit Types (self : List.t) (st : gmap string (list string)).

(** On a direct connection a delegated command runs on the store. *)
Lemma delegated_run {S A} (c : Container.t) (att : string) (run : ST S A)
    (s : S) :
  connected c = true ->
  delegated c att run s
  = match run s with
    | (Ok a, s') => (Ok (Reply a), s')
    | (Raise e, s') => (Raise e, s')
    end.
Proof.
  intros Hc. destruct (connected_method c att Hc) as [h Hm].
  unfold delegated, step_bind, step_lift. rewrite Hm.
  by destruct (run s) as [[a|e] s'].
Qed.

(** On a direct connection [clear] deletes the key. *)
Lemma clear_run {V} (c : Container.t) (s : gmap string V) :
  connected c = true ->
  clear c s = (Ok tt, delete (Container.key c) s).
Proof.
  intros Hc. destruct (connected_db_now c Hc) as (h & Hdb & Hp).
  unfold clear, step_bind, step_lift. by rewrite Hdb, Hp.
Qed.

Lemma untraced_all self st :
  connected self = true ->
  untraced (List.all self) st
  = (Ok (Reply (Str <$> elements st (Container.key self))), st).
Proof. intros Hc. unfold untraced. by rewrite List_all_run. Qed.

Lemma untraced_len self st :
  connected self = true ->
  untraced (List.__len__ self) st
  = (Ok (Reply (Redis.llen (elements st (Container.key self)))), st).
Proof. intros Hc. unfold untraced. by rewrite List_len_run. Qed.

Lemma untraced_getitem_int self st (i : Z) :
  connected self = true -> is_int i = true ->
  untraced (List.__getitem__ self (IInt i)) st
  = (Ok (Reply (ListMore.bulk
                  (Redis.lindex (elements st (Container.key self)) i))),
     st).
Proof.
  intros Hc Hi. unfold untraced. by rewrite List_getitem_int_run.
Qed.

Lemma untraced_extend self st (values : list pyobj) :
  connected self = true ->
  exists st',
    untraced (List.extend self values) st = (Ok tt, st')
    /\ elements st' (Container.key self)
       = elements st (Container.key self) ++ (encode <$> values)
    /\ (forall key', key' <> Container.key self -> st' !! key' = st !! key').
Proof.
  intros Hc.
  destruct (List_extend_run self values (World st []) Hc)
    as (w' & Hrun & Hel & Hother & _).
  exists (store w'). unfold untraced. rewrite Hrun. by split.
Qed.

Lemma untraced_append self st (value : pyobj) :
  connected self = true ->
  untraced (List.append self value) st
  = (Ok tt,
     <[Container.key self :=
         Redis.rpush (elements st (Container.key self)) (encode value)]> st).
Proof.
  intros Hc. unfold untraced, List.append, bind.
  by rewrite List_rpush_run.
Qed.

Lemma untraced_full_slice self st :
  connected self = true ->
  untraced (List.__getitem__ self (ISlice (Slice None None None))) st
  = (Ok (Reply (Str <$> elements st (Container.key self))), st).
Proof.
  intros Hc.
  unfold untraced. rewrite List_getitem_slice_run by done. cbn [store].
  set (l := elements st (Container.key self)).
  assert (Hs : slice_indices (Slice None None None) (Redis.llen l)
               = Ok (0%Z, Redis.llen l, 1%Z)) by reflexivity.
  rewrite Hs. cbn [fst snd store logged].
  rewrite lrange_as_slice by (unfold Redis.llen; lia).
  rewrite Z.sub_0_r. change (Z.to_nat 0) with 0%nat. rewrite drop_0.
  unfold Redis.llen. rewrite Nat2Z.id, firstn_all.
  rewrite lookup_ge_None_2 by lia.
  destruct (0 <=? Z.of_nat (length l))%Z; cbn; by rewrite app_nil_r.
Qed.

Lemma elements_delete st (key : string) : elements (delete key st) key = [].
Proof. unfold elements. by rewrite lookup_delete_eq. Qed.

Lemma elements_other st st' (key' : string) :
  st' !! key' = st !! key' -> elements st' key' = elements st key'.
Proof. unfold elements. by intros ->. Qed.

Lemma fmap_rev {A B} (f : A -> B) (l : list A) :
  f <$> rev l = rev (f <$> l).
Proof.
  induction l as [|x l IH]; [reflexivity|].
  cbn [rev fmap list_fmap]. rewrite fmap_app. by rewrite IH.
Qed.

(** X10. On a direct connection [reverse] leaves the stored elements in
    reverse order and touches no other key, when the client sends a byte
    string as it is; reversing twice restores the list. *)
Theorem reverse_reverses self st :
  connected self = true ->
  (forall s, encode (Str s) = s) ->
  let key := Container.key self in
  exists st',
    ListMore.reverse self st = (Ok tt, st')
    /\ elements st' key = rev (elements st key)
    /\ (forall key', key' <> key -> st' !! key' = st !! key')
    /\ elements (ListMore.reverse self st').2 key = elements st key.
Proof.
  intros Hc Henc key.
  assert (Hone : forall st0, exists st1,
    ListMore.reverse self st0 = (Ok tt, st1)
    /\ elements st1 key = rev (elements st0 key)
    /\ (forall key', key' <> key -> st1 !! key' = st0 !! key')).
  { intros st0. unfold ListMore.reverse, step_bind.
    rewrite untraced_full_slice by done. cbn [step_lift attribute_of].
    rewrite clear_run by done.
    destruct (untraced_extend self (delete key st0)
                (rev (Str <$> elements st0 key)) Hc)
      as (st1 & Hrun & Hel & Hother).
    fold key. rewrite Hrun. exists st1. split; [reflexivity|]. split.
    - fold key in Hel. rewrite Hel, elements_delete. cbn [app].
      rewrite <- fmap_rev, <- list_fmap_compose.
      rewrite <- (list_fmap_id (rev (elements st0 key))) at 2.
      apply list_fmap_ext. intros _ s _. apply Henc.
    - intros key' Hkey. rewrite Hother by done. by apply lookup_delete_ne. }
  destruct (Hone st) as (st' & Hrun & Hel & Hother).
  exists st'. split; [exact Hrun|]. split; [exact Hel|].
  split; [exact Hother|].
  destruct (Hone st') as (st'' & Hrun' & Hel' & _).
  rewrite Hrun'. cbn [snd]. by rewrite Hel', Hel, rev_involutive.
Qed.


Lemma rpop_snoc (l : list string) (x : string) :
  RedisList.rpop (l ++ [x]) = (Some x, l).
Proof.
  unfold RedisList.rpop. rewrite last_snoc, length_app. cbn [length].
  replace (length l + 1 - 1)%nat with (length l) by lia.
  by rewrite take_app_length.
Qed.

(** X12. On a direct connection [pop] returns the last element and removes
    it and nothing else; on an empty list it returns [None] and leaves the
    store as it is. So [append] followed by [pop] gives back the stored
    form of the value and the elements as they were. *)
Theorem pop_takes_the_tail self st :
  connected self = true ->
  let key := Container.key self in
  (forall l x,
     elements st key = l ++ [x] ->
     ListMore.pop self st = (Ok (Reply (Str x)), <[key := l]> st))
  /\ (elements st key = [] ->
      ListMore.pop self st = (Ok (Reply None_), st))
  /\ (forall value : pyobj, exists st',
        (let+ _ := untraced (List.append self value) in ListMore.pop self) st
        = (Ok (Reply (Str (encode value))), st')
        /\ elements st' key = elements st key
        /\ (forall key', key' <> key -> st' !! key' = st !! key')).
Proof.
  intros Hc key. split; [|split].
  - intros l x Hl. unfold ListMore.pop, ListMore.rpop.
    rewrite delegated_run by done. fold key.
    by rewrite Hl, rpop_snoc.
  - intros Hl. unfold ListMore.pop, ListMore.rpop.
    rewrite delegated_run by done. fold key. by rewrite Hl.
  - intros value. unfold step_bind. rewrite untraced_append by done.
    unfold ListMore.pop, ListMore.rpop.
    rewrite delegated_run by done. fold key.
    rewrite elements_insert. unfold Redis.rpush. rewrite rpop_snoc.
    eexists. split; [reflexivity|]. split.
    + by rewrite elements_insert.
    + intros key' Hkey. by rewrite !lookup_insert_ne.
Qed.

(** X13. On a direct connection [shift] returns the first element and
    removes it; on an empty list it returns [None]. [unshift] followed by
    [shift] gives back the stored form of the value and the elements as
    they were. *)
Theorem shift_takes_the_head self st :
  connected self = true ->
  let key := Container.key self in
  (forall x l,
     elements st key = x :: l ->
     ListMore.shift self st = (Ok (Reply (Str x)), <[key := l]> st))
  /\ (elements st key = [] ->
      ListMore.shift self st = (Ok (Reply None_), st))
  /\ (forall value : pyobj, exists st',
        (let+ _ := ListMore.unshift self value in ListMore.shift self) st
        = (Ok (Reply (Str (encode value))), st')
        /\ elements st' key = elements st key
        /\ (forall key', key' <> key -> st' !! key' = st !! key')).
Proof.
  intros Hc key. split; [|split].
  - intros x l Hl. unfold ListMore.shift, ListMore.lpop.
    rewrite delegated_run by done. fold key. by rewrite Hl.
  - intros Hl. unfold ListMore.shift, ListMore.lpop.
    rewrite delegated_run by done. fold key. by rewrite Hl.
  - intros value. unfold step_bind, ListMore.unshift, step_bind,
      ListMore.lpush.
    rewrite delegated_run by done. cbn [step_ret].
    unfold ListMore.shift, ListMore.lpop.
    rewrite delegated_run by done. fold key.
    rewrite elements_insert. cbn [RedisList.lpush RedisList.lpop].
    eexists. split; [reflexivity|]. split.
    + by rewrite elements_insert.
    + intros key' Hkey. by rewrite !lookup_insert_ne.
Qed.

(** X14. On a direct connection [pop_onto] moves the last element of the
    list to the head of the list at the other key and returns it; onto its
    own key it rotates the list; on an empty list it returns [None] and
    changes nothing. *)
Theorem pop_onto_moves_the_tail self st (dst : string) :
  connected self = true ->
  let src := Container.key self in
  (forall l x,
     elements st src = l ++ [x] ->
     exists st',
       ListMore.pop_onto self dst st = (Ok (Reply (Str x)), st')
       /\ (dst <> src ->
           elements st' src = l /\ elements st' dst = x :: elements st dst)
       /\ (dst = src -> elements st' src = x :: l)
       /\ (forall key', key' <> src -> key' <> dst ->
             st' !! key' = st !! key'))
  /\ (elements st src = [] ->
      ListMore.pop_onto self dst st = (Ok (Reply None_), st)).
Proof.
  intros Hc src. split.
  - intros l x Hl.
    unfold ListMore.pop_onto, ListMore.rpoplpush.
    rewrite delegated_run by done. unfold RedisList.rpoplpush.
    fold src. rewrite Hl, rpop_snoc. cbn [ListMore.bulk].
    eexists. split; [reflexivity|]. split; [|split].
    + intros Hne. split.
      * unfold elements at 1. rewrite lookup_insert_ne by done.
        by rewrite lookup_insert_eq.
      * rewrite elements_insert. unfold RedisList.lpush. f_equal.
        apply elements_other. by rewrite lookup_insert_ne.
    + intros ->. rewrite !elements_insert. reflexivity.
    + intros key' Hs Hd. by rewrite !lookup_insert_ne.
  - intros Hl.
    unfold ListMore.pop_onto, ListMore.rpoplpush.
    rewrite delegated_run by done. unfold RedisList.rpoplpush.
    fold src. by rewrite Hl.
Qed.

Lemma list_index_Some (value : string) (l : list string) (i : nat) :
  ListMore.list_index value (Str <$> l) = Some i ->
  l !! i = Some value /\ (forall j, (j < i)%nat -> l !! j <> Some value).
Proof.
  revert i. induction l as [|x l IH]; intros i; cbn; [discriminate|].
  destruct (String.eqb_spec x value) as [->|Hne].
  - intros [= <-]. split; [reflexivity|]. lia.
  - destruct (ListMore.list_index value (Str <$> l)) as [i'|] eqn:Hi;
      cbn; [|discriminate].
    intros [= <-]. destruct (IH i' eq_refl) as [Hat Hbefore].
    split; [exact Hat|].
    intros [|j] Hj; cbn; [congruence|]. apply Hbefore. lia.
Qed.

Lemma list_index_None (value : string) (l : list string) :
  ListMore.list_index value (Str <$> l) = None <-> value ∉ l.
Proof.
  induction l as [|x l IH]; cbn.
  - split; [intros _; apply not_elem_of_nil | done].
  - destruct (String.eqb_spec x value) as [->|Hne].
    + split; [discriminate|]. intros Hnot. exfalso. apply Hnot. by left.
    + destruct (ListMore.list_index value (Str <$> l)) as [i'|]; cbn.
      * split; [discriminate|]. intros Hnot.
        apply not_elem_of_cons in Hnot as [_ Hnot].
        apply IH in Hnot. discriminate.
      * split; [|done]. intros _. apply not_elem_of_cons.
        split; [congruence|]. by apply IH.
Qed.

Lemma list_count_zero (value : string) (l : list string) :
  ListMore.list_count value (Str <$> l) = 0%Z <-> value ∉ l.
Proof.
  unfold ListMore.list_count.
  induction l as [|x l IH]; cbn [fmap list_fmap].
  - split; [intros _; apply not_elem_of_nil | done].
  - destruct (String.eqb_spec x value) as [->|Hne].
    + rewrite filter_cons_True
        by (cbn; rewrite String.eqb_refl; exact I).
      cbn [length]. split; [lia|].
      intros Hnot. exfalso. apply Hnot. by left.
    + rewrite filter_cons_False
        by (cbn; rewrite (proj2 (String.eqb_neq x value) Hne); tauto).
      rewrite IH. rewrite not_elem_of_cons. split; [|tauto].
      intros Hl. split; [congruence | exact Hl].
Qed.

(** X15. On a direct connection [index] returns the first position that
    holds the value, and the subscript at that position reads the value
    back. *)
Theorem index_finds_the_first self st (value : string)
    (repr : string -> string) :
  let l := elements st (Container.key self) in
  connected self = true ->
  is_int (Redis.llen l) = true ->
  value ∈ l ->
  exists i : nat,
    ListMore.index repr self value st = (Ok (Z.of_nat i), st)
    /\ l !! i = Some value
    /\ (forall j, (j < i)%nat -> l !! j <> Some value)
    /\ untraced (List.__getitem__ self (IInt (Z.of_nat i))) st
       = (Ok (Reply (Str value)), st).
Proof.
  intros l Hc Hint Hin. unfold ListMore.index, step_bind.
  rewrite untraced_all by done. cbn [step_lift attribute_of].
  fold l.
  destruct (ListMore.list_index value (Str <$> l)) as [i|] eqn:Hi.
  - destruct (list_index_Some value l i Hi) as [Hat Hbefore].
    exists i. split; [reflexivity|]. split; [exact Hat|].
    split; [exact Hbefore|].
    assert (Hi' : (i < length l)%nat) by (by eapply lookup_lt_Some).
    rewrite untraced_getitem_int; [| done |].
    + fold l. by rewrite lindex_in_range, Hat.
    + apply (is_int_position (Redis.llen l)); [done|].
      unfold Redis.llen. lia.
  - apply list_index_None in Hi. done.
Qed.

(** X16. On a direct connection, for a value the list does not hold,
    [index] raises [ValueError] and [count] returns 0, the store untouched;
    [count] returns 0 for no other value. *)
Theorem index_raises_where_count_is_zero self st (value : string)
    (repr : string -> string) :
  let l := elements st (Container.key self) in
  connected self = true ->
  (value ∉ l ->
   ListMore.index repr self value st
     = (Raise (ValueError (repr value ++ " is not in list")), st)
   /\ ListMore.count self value st = (Ok 0%Z, st))
  /\ (ListMore.count self value st = (Ok 0%Z, st) -> value ∉ l).
Proof.
  intros l Hc. split.
  - intros Hnot. split.
    + unfold ListMore.index, step_bind. rewrite untraced_all by done.
      cbn [step_lift attribute_of]. fold l.
      by rewrite (proj2 (list_index_None value l) Hnot).
    + unfold ListMore.count, step_bind. rewrite untraced_all by done.
      cbn [step_lift attribute_of]. fold l.
      unfold step_ret. by rewrite (proj2 (list_count_zero value l) Hnot).
  - unfold ListMore.count, step_bind. rewrite untraced_all by done.
    cbn [step_lift attribute_of]. fold l.
    unfold step_ret. intros [= Hz]. by apply list_count_zero.
Qed.

(** X17. On a direct connection, after [clear] the list reads as empty:
    its length is 0, [all()] is empty and every [int] subscript reads
    [None]; no other key changes. *)
Theorem clear_empties self st :
  connected self = true ->
  let st' := (clear self st).2 in
  clear self st = (Ok tt, st')
  /\ untraced (List.__len__ self) st' = (Ok (Reply 0%Z), st')
  /\ untraced (List.all self) st' = (Ok (Reply []), st')
  /\ (forall i, is_int i = true ->
        untraced (List.__getitem__ self (IInt i)) st'
        = (Ok (Reply None_), st'))
  /\ (forall key', key' <> Container.key self -> st' !! key' = st !! key').
Proof.
  intros Hc st'. subst st'. rewrite clear_run by done. cbn [snd].
  split; [reflexivity|]. split; [|split; [|split]].
  - by rewrite untraced_len, elements_delete.
  - by rewrite untraced_all, elements_delete.
  - intros i Hi. rewrite untraced_getitem_int, elements_delete by done.
    unfold Redis.lindex. cbv zeta. by repeat case_match.
  - intros key' Hkey. by apply lookup_delete_ne.
Qed.

End StoreSteps.

(** ** Assignment through the proxy *)

Section Assignment.
Context `{E : External}.
Implicit Types (self : TypedList.t) (st : gmap string (list string)).

Lemma untraced_typed_getitem_int self st (i : Z) :
  connected (TypedList.list_ self) = true -> is_int i = true ->
  untraced (TypedList.__getitem__ self (IInt i)) st
  = (TypedList.typecast_item self
       (ListMore.bulk
          (Redis.lindex (elements st (Container.key (TypedList.list_ self)))
                        i)),
     st).
Proof.
  intros Hc Hi. unfold untraced. by rewrite TypedList_getitem_int_run.
Qed.

(** On a direct connection the assignment is the LSET of the stored form. *)
Lemma ListMore_setitem_run (l0 : List.t) st (i : Z) (v : pyobj) :
  connected l0 = true ->
  ListMore.__setitem__ l0 i v st
  = match RedisList.lset (elements st (Container.key l0)) i (encode v) with
    | Ok l => (Ok tt, <[Container.key l0 := l]> st)
    | Raise e => (Raise e, st)
    end.
Proof.
  intros Hc. unfold ListMore.__setitem__, step_bind, ListMore.lset.
  rewrite delegated_run by done.
  by destruct (RedisList.lset _ i (encode v)).
Qed.

(** An index inside the list is a position, negative ones from the tail. *)
Lemma lset_in_range (l : list string) (i : Z) (v : string) :
  is_int i = true ->
  (- Redis.llen l <= i < Redis.llen l)%Z ->
  let j := Z.to_nat (if (i <? 0)%Z then (Redis.llen l + i)%Z else i) in
  RedisList.lset l i v = Ok (<[j := v]> l)
  /\ Redis.lindex (<[j := v]> l) i = Some v.
Proof.
  intros Hint Hi j.
  destruct l as [|x l']; [unfold Redis.llen in Hi; cbn in Hi; lia|].
  set (p := if (i <? 0)%Z then (Redis.llen (x :: l') + i)%Z else i) in *.
  assert (Hp : (0 <= p < Redis.llen (x :: l'))%Z)
    by (subst p; destruct (Z.ltb_spec i 0); lia).
  split.
  - unfold RedisList.lset. rewrite Hint. cbv beta iota zeta. fold p.
    cbn [negb].
    rewrite (proj2 (Z.ltb_ge p 0)) by lia.
    by rewrite (proj2 (Z.leb_gt (Redis.llen (x :: l')) p)) by lia.
  - unfold Redis.lindex. cbv zeta.
    replace (Redis.llen (<[j := v]> (x :: l'))) with (Redis.llen (x :: l'))
      by (unfold Redis.llen; by rewrite length_insert).
    fold p. rewrite (proj2 (Z.ltb_ge p 0)) by lia.
    apply list_lookup_insert_eq. subst j. unfold Redis.llen in Hp. lia.
Qed.

(** X18. On a direct connection, assigning at an [int] index inside the
    list, negative ones counting from the tail, replaces the stored form
    of that one element; the length and every other key stay; and the
    subscript at the same index then reads the cast of what was stored. *)
Theorem setitem_then_getitem self st (i : Z) (e v : pyobj) :
  let key := Container.key (TypedList.list_ self) in
  let l := elements st key in
  let j := Z.to_nat (if (i <? 0)%Z then (Redis.llen l + i)%Z else i) in
  connected (TypedList.list_ self) = true ->
  is_int i = true ->
  TypedList.typecast_stor self e = Ok v ->
  (- Redis.llen l <= i < Redis.llen l)%Z ->
  exists st',
    TypedListMore.__setitem__ self i e st = (Ok tt, st')
    /\ elements st' key = <[j := encode v]> l
    /\ length (elements st' key) = length l
    /\ (forall key', key' <> key -> st' !! key' = st !! key')
    /\ TypedListMore.set_then_get self i e st
       = (TypedList.typecast_item self (Str (encode v)), st').
Proof.
  intros key l j Hc Hint Hstor Hi.
  destruct (lset_in_range l i (encode v) Hint Hi) as [Hset Hget].
  fold j in Hset, Hget.
  assert (Hrun : TypedListMore.__setitem__ self i e st
                 = (Ok tt, <[key := <[j := encode v]> l]> st)).
  { unfold TypedListMore.__setitem__, step_bind, step_lift. rewrite Hstor.
    rewrite ListMore_setitem_run by done. fold key l. by rewrite Hset. }
  eexists. split; [exact Hrun|].
  rewrite elements_insert. split; [reflexivity|].
  split; [apply length_insert|]. split.
  - intros key' Hkey. by rewrite lookup_insert_ne.
  - unfold TypedListMore.set_then_get, step_bind. rewrite Hrun.
    rewrite untraced_typed_getitem_int by done. fold key.
    by rewrite elements_insert, Hget.
Qed.

(** X19. On a direct connection, assigning at an [int] index outside the
    list raises the client's [ResponseError] and leaves the store as it
    is, where reading that index returns [None]. *)
Theorem setitem_outside_raises self st (i : Z) (e v : pyobj) :
  let key := Container.key (TypedList.list_ self) in
  let n := Redis.llen (elements st key) in
  connected (TypedList.list_ self) = true ->
  is_int i = true ->
  TypedList.typecast_stor self e = Ok v ->
  (n <= i)%Z \/ (i < - n)%Z ->
  (exists msg,
     TypedListMore.__setitem__ self i e st
     = (Raise (RedisList.ResponseError msg), st))
  /\ untraced (List.__getitem__ (TypedList.list_ self) (IInt i)) st
     = (Ok (Reply None_), st).
Proof.
  intros key n Hc Hint Hstor Hi. split.
  - unfold TypedListMore.__setitem__, step_bind, step_lift. rewrite Hstor.
    rewrite ListMore_setitem_run by done. unfold RedisList.lset. fold key.
    rewrite Hint. cbn [negb].
    subst n.
    destruct (elements st key) as [|x l'] eqn:Hl; [by eexists|].
    cbv zeta.
    set (p := if (i <? 0)%Z then (Redis.llen (x :: l') + i)%Z else i).
    assert (Hp : (p < 0)%Z \/ (Redis.llen (x :: l') <= p)%Z).
    { subst p. destruct (Z.ltb_spec i 0); lia. }
    assert (Hout : ((p <? 0) || (Redis.llen (x :: l') <=? p))%Z = true).
    { destruct Hp as [Hp|Hp].
      - by rewrite (proj2 (Z.ltb_lt p 0)) by lia.
      - rewrite (proj2 (Z.leb_le (Redis.llen (x :: l')) p)) by lia.
        apply orb_true_r. }
    rewrite Hout. by eexists.
  - rewrite untraced_getitem_int by done. fold key.
    by rewrite lindex_outside.
Qed.

End Assignment.

(** ** Sets *)

Section SetFacts.
Context `{E : External}.
Implicit Types (self other : Set_.t) (st : gmap string (gset string)).

Lemma smembers_put st (key : string) (s : gset string) :
  RedisSet.smembers (RedisSet.put st key s) key = s.
Proof.
  unfold RedisSet.smembers, RedisSet.put.
  destruct (decide (s = ∅)) as [->|].
  - by rewrite lookup_delete_eq.
  - by rewrite lookup_insert_eq.
Qed.

Lemma lookup_put_ne st (key key' : string) (s : gset string) :
  key' <> key -> RedisSet.put st key s !! key' = st !! key'.
Proof.
  intros Hne. unfold RedisSet.put.
  destruct (decide (s = ∅)).
  - by rewrite lookup_delete_ne.
  - by rewrite lookup_insert_ne.
Qed.

Lemma smembers_put_ne st (key key' : string) (s : gset string) :
  key' <> key ->
  RedisSet.smembers (RedisSet.put st key s) key' = RedisSet.smembers st key'.
Proof. intros Hne. unfold RedisSet.smembers. by rewrite lookup_put_ne. Qed.

(** How the commands of a set run on a direct connection. *)

Lemma srem_run self st (value : pyobj) :
  connected self = true ->
  Set_.srem self value st
  = (Ok (Reply (if decide (encode value
                           ∈ RedisSet.smembers st (Container.key self))
                then 1%Z else 0%Z)),
     RedisSet.put st (Container.key self)
       (RedisSet.smembers st (Container.key self) ∖ {[encode value]})).
Proof. intros Hc. unfold Set_.srem. by rewrite delegated_run. Qed.

Lemma sadd_run self st (value : pyobj) :
  connected self = true ->
  Set_.sadd self value st
  = (Ok (Reply (if decide (encode value
                           ∈ RedisSet.smembers st (Container.key self))
                then 0%Z else 1%Z)),
     RedisSet.put st (Container.key self)
       ({[encode value]} ∪ RedisSet.smembers st (Container.key self))).
Proof. intros Hc. unfold Set_.sadd. by rewrite delegated_run. Qed.

Lemma scard_run self st :
  connected self = true ->
  Set_.__len__ self st
  = (Ok (Reply (Z.of_nat (size (RedisSet.smembers st (Container.key self))))),
     st).
Proof.
  intros Hc. unfold Set_.__len__, Set_.scard. by rewrite delegated_run.
Qed.

Lemma sismember_run self st (value : pyobj) :
  connected self = true ->
  Set_.__contains__ self value st
  = (Ok (Reply (bool_decide
                  (encode value ∈ RedisSet.smembers st (Container.key self)))),
     st).
Proof.
  intros Hc. unfold Set_.__contains__, Set_.sismember.
  by rewrite delegated_run.
Qed.



Lemma sunionstore_run self st (dest : string) (keys : list string) :
  connected self = true ->
  Set_.db_sunionstore self dest keys st
  = (Ok (Reply (Z.of_nat (size (RedisSet.sunion st keys)))),
     RedisSet.put st dest (RedisSet.sunion st keys)).
Proof. intros Hc. unfold Set_.db_sunionstore. by rewrite delegated_run. Qed.

Lemma sinterstore_run self st (dest : string) (keys : list string) :
  connected self = true ->
  Set_.db_sinterstore self dest keys st
  = (Ok (Reply (Z.of_nat (size (RedisSet.sinter st keys)))),
     RedisSet.put st dest (RedisSet.sinter st keys)).
Proof. intros Hc. unfold Set_.db_sinterstore. by rewrite delegated_run. Qed.

Lemma sdiffstore_run self st (dest : string) (keys : list string) :
  connected self = true ->
  Set_.db_sdiffstore self dest keys st
  = (Ok (Reply (Z.of_nat (size (RedisSet.sdiff st keys)))),
     RedisSet.put st dest (RedisSet.sdiff st keys)).
Proof. intros Hc. unfold Set_.db_sdiffstore. by rewrite delegated_run. Qed.

(** X20. On a direct connection [remove] of a member removes it and only
    it; [remove] of a value that is no member raises [KeyError] with the
    value. [discard] changes the store as [remove] does and never
    raises. *)
Theorem remove_raises_where_discard_passes self st (value : pyobj) :
  connected self = true ->
  let key := Container.key self in
  let s := RedisSet.smembers st key in
  exists st',
    Set_.discard self value st = (Ok tt, st')
    /\ Set_.remove self value st
       = (if decide (encode value ∈ s) then Ok tt
          else Raise (Set_.KeyError value), st')
    /\ RedisSet.smembers st' key = s ∖ {[encode value]}
    /\ (encode value ∉ s -> RedisSet.smembers st' key = s)
    /\ (forall key', key' <> key -> st' !! key' = st !! key').
Proof.
  intros Hc key s.
  exists (RedisSet.put st key (s ∖ {[encode value]})).
  split; [|split; [|split; [|split]]].
  - unfold Set_.discard, step_bind. by rewrite srem_run.
  - unfold Set_.remove, step_bind. rewrite srem_run by done. fold key s.
    by destruct (decide (encode value ∈ s)).
  - apply smembers_put.
  - intros Hnot. rewrite smembers_put. set_solver.
  - intros key' Hkey. by apply lookup_put_ne.
Qed.



Lemma elem_of_sunion st (keys : list string) (x : string) :
  x ∈ RedisSet.sunion st keys
  <-> exists k, k ∈ keys /\ x ∈ RedisSet.smembers st k.
Proof.
  unfold RedisSet.sunion.
  assert (Hgen : forall acc,
    x ∈ foldl (fun acc k' => acc ∪ RedisSet.smembers st k') acc keys
    <-> x ∈ acc \/ exists k, k ∈ keys /\ x ∈ RedisSet.smembers st k).
  { induction keys as [|k keys IH]; intros acc; cbn [foldl].
    - split; [by left|]. intros [H|(k & Hk & _)]; [done|].
      by apply not_elem_of_nil in Hk.
    - rewrite IH, elem_of_union. split.
      + intros [[H|H]|(k' & Hk' & H)]; [by left| |].
        * right. exists k. split; [by left | done].
        * right. exists k'. split; [by right | done].
      + intros [H|(k' & Hk' & H)]; [by left; left|].
        apply elem_of_cons in Hk' as [->|Hk'].
        * by left; right.
        * right. by exists k'. }
  rewrite Hgen. split; [|by right]. intros [H|H]; [set_solver | done].
Qed.

Lemma elem_of_sinter st (k : string) (ks : list string) (x : string) :
  x ∈ RedisSet.sinter st (k :: ks)
  <-> x ∈ RedisSet.smembers st k
      /\ forall k', k' ∈ ks -> x ∈ RedisSet.smembers st k'.
Proof.
  cbn [RedisSet.sinter]. generalize (RedisSet.smembers st k) as acc.
  induction ks as [|k1 ks IH]; intros acc; cbn [foldl].
  - split; [|by intros [H _]]. intros H. split; [done|].
    intros k' Hk'. by apply not_elem_of_nil in Hk'.
  - rewrite IH, elem_of_intersection. split.
    + intros [[Ha H1] Hks]. split; [done|]. intros k' Hk'.
      apply elem_of_cons in Hk' as [->|Hk']; [done | by apply Hks].
    + intros [Ha Hall]. split; [split; [done|]|].
      * apply Hall. by left.
      * intros k' Hk'. apply Hall. by right.
Qed.

Lemma elem_of_sdiff st (k : string) (ks : list string) (x : string) :
  x ∈ RedisSet.sdiff st (k :: ks)
  <-> x ∈ RedisSet.smembers st k
      /\ forall k', k' ∈ ks -> x ∉ RedisSet.smembers st k'.
Proof.
  cbn [RedisSet.sdiff]. generalize (RedisSet.smembers st k) as acc.
  induction ks as [|k1 ks IH]; intros acc; cbn [foldl].
  - split; [|by intros [H _]]. intros H. split; [done|].
    intros k' Hk'. by apply not_elem_of_nil in Hk'.
  - rewrite IH, elem_of_difference. split.
    + intros [[Ha H1] Hks]. split; [done|]. intros k' Hk'.
      apply elem_of_cons in Hk' as [->|Hk']; [done | by apply Hks].
    + intros [Ha Hall]. split; [split; [done|]|].
      * apply Hall. by left.
      * intros k' Hk'. apply Hall. by right.
Qed.

(** X23. On a direct connection, with a [str] key, [union],
    [intersection] and [difference] return a set at that key on the same
    connection and leave there the members of the set or of one of the
    others, the members of the set and of all the others, and the members
    of the set that none of the others has; the sources are read before
    the key is written, and no other key changes. *)
Theorem set_algebra_stores_the_result self st (k : string)
    (others : list Set_.t) :
  connected self = true ->
  let a := RedisSet.smembers st (Container.key self) in
  exists h,
    db_now self = Ok (Some h)
    /\ (exists st',
          Set_.union self (Str k) others st
          = (Ok (Container.__init__ k (Some h) None), st')
          /\ (forall x, x ∈ RedisSet.smembers st' k
                        <-> x ∈ a \/ exists o, o ∈ others
                              /\ x ∈ RedisSet.smembers st (Container.key o))
          /\ (forall key', key' <> k -> st' !! key' = st !! key'))
    /\ (exists st',
          Set_.intersection self (Str k) others st
          = (Ok (Container.__init__ k (Some h) None), st')
          /\ (forall x, x ∈ RedisSet.smembers st' k
                        <-> x ∈ a /\ forall o, o ∈ others ->
                              x ∈ RedisSet.smembers st (Container.key o))
          /\ (forall key', key' <> k -> st' !! key' = st !! key'))
    /\ (exists st',
          Set_.difference self (Str k) others st
          = (Ok (Container.__init__ k (Some h) None), st')
          /\ (forall x, x ∈ RedisSet.smembers st' k
                        <-> x ∈ a /\ forall o, o ∈ others ->
                              x ∉ RedisSet.smembers st (Container.key o))
          /\ (forall key', key' <> k -> st' !! key' = st !! key')).
Proof.
  intros Hc a.
  destruct (connected_db_now self Hc) as (h & Hdb & Hp).
  exists h. split; [exact Hdb|].
  assert (Hkeys : forall k', k' ∈ Container.key <$> others
                             <-> exists o, o ∈ others /\ Container.key o = k').
  { intros k'. rewrite list_elem_of_fmap. naive_solver. }
  assert (Hnew : Set_.new_set self k
                 = Ok (Container.__init__ k (Some h) None)).
  { unfold Set_.new_set. by rewrite Hdb. }
  split; [|split].
  - eexists. split; [|split].
    + unfold Set_.union, step_bind, step_lift, Set_.expect_str.
      rewrite sunionstore_run by done. rewrite Hnew. reflexivity.
    + intros x. rewrite smembers_put, elem_of_sunion. split.
      * intros (k' & Hk' & Hx). apply elem_of_cons in Hk' as [->|Hk'].
        -- by left.
        -- right. apply Hkeys in Hk' as (o & Ho & <-). by exists o.
      * intros [Hx|(o & Ho & Hx)].
        -- exists (Container.key self). split; [by left | done].
        -- exists (Container.key o). split; [|done]. right.
           apply Hkeys. by exists o.
    + intros key' Hkey. by apply lookup_put_ne.
  - eexists. split; [|split].
    + unfold Set_.intersection, step_bind, step_lift, Set_.expect_str.
      rewrite sinterstore_run by done. rewrite Hnew. reflexivity.
    + intros x. rewrite smembers_put, elem_of_sinter. split.
      * intros [Hx Hall]. split; [done|]. intros o Ho. apply Hall.
        apply Hkeys. by exists o.
      * intros [Hx Hall]. split; [done|]. intros k' Hk'.
        apply Hkeys in Hk' as (o & Ho & <-). by apply Hall.
    + intros key' Hkey. by apply lookup_put_ne.
  - eexists. split; [|split].
    + unfold Set_.difference, step_bind, step_lift, Set_.expect_str.
      rewrite sdiffstore_run by done. rewrite Hnew. reflexivity.
    + intros x. rewrite smembers_put, elem_of_sdiff. split.
      * intros [Hx Hall]. split; [done|]. intros o Ho. apply Hall.
        apply Hkeys. by exists o.
      * intros [Hx Hall]. split; [done|]. intros k' Hk'.
        apply Hkeys in Hk' as (o & Ho & <-). by apply Hall.
    + intros key' Hkey. by apply lookup_put_ne.
Qed.

(** X24. On a direct connection [copy] to another key leaves there the
    members of the set and leaves the set as it was; [copy] to the set's
    own key empties the set, because the key is cleared before the set is
    read. *)
Theorem set_copy_duplicates_or_empties self st (key : string) :
  connected self = true ->
  exists h st',
    db_now self = Ok (Some h)
    /\ Set_.copy self key st
       = (Ok (Container.__init__ key (Some h) None), st')
    /\ (key <> Container.key self ->
        RedisSet.smembers st' key = RedisSet.smembers st (Container.key self)
        /\ st' !! Container.key self = st !! Container.key self)
    /\ (key = Container.key self -> RedisSet.smembers st' key = ∅)
    /\ (forall key', key' <> key -> st' !! key' = st !! key').
Proof.
  intros Hc.
  destruct (connected_db_now self Hc) as (h & Hdb & Hp).
  assert (Hc' : connected (Container.__init__ key (Some h) None) = true)
    by (by apply connected_init).
  exists h. eexists. split; [exact Hdb|].
  unfold Set_.copy, Set_.new_set, step_bind, step_lift. rewrite Hdb.
  cbn [result_map]. rewrite clear_run by done.
  unfold Set_.__ior__, step_bind. rewrite sunionstore_run by done.
  cbn [Container.__init__ Container.key step_ret].
  split; [reflexivity|].
  assert (Hnone : RedisSet.smembers (delete key st) key = ∅).
  { unfold RedisSet.smembers. by rewrite lookup_delete_eq. }
  assert (Hun : forall k2,
    RedisSet.sunion (delete key st) [key; k2]
    = RedisSet.smembers (delete key st) k2).
  { intros k2. unfold RedisSet.sunion. cbn [foldl]. rewrite Hnone.
    set_solver. }
  rewrite Hun, smembers_put. split; [|split].
  - intros Hne. split.
    + unfold RedisSet.smembers. by rewrite lookup_delete_ne.
    + rewrite lookup_put_ne by done. by apply lookup_delete_ne.
  - intros ->. exact Hnone.
  - intros key' Hkey. rewrite lookup_put_ne by done.
    by apply lookup_delete_ne.
Qed.

End SetFacts.

(** ** Adding to a set, and a slice that counts downwards *)

Section MoreSetFacts.
Context `{E : External}.
Implicit Types (self : Set_.t) (st : gmap string (gset string)).

(** X25. On a direct connection, after [add] the value is a member, the
    other members are the ones there were, the length has grown by one
    exactly when the value was no member, and adding the value again
    changes nothing. *)
Theorem add_then_contains self st (value : pyobj) :
  connected self = true ->
  let key := Container.key self in
  let s := RedisSet.smembers st key in
  exists st',
    Set_.add self value st = (Ok tt, st')
    /\ RedisSet.smembers st' key = {[encode value]} ∪ s
    /\ Set_.__contains__ self value st' = (Ok (Reply true), st')
    /\ Set_.__len__ self st'
       = (Ok (Reply (Z.of_nat (size s)
                     + (if decide (encode value ∈ s) then 0 else 1))%Z), st')
    /\ Set_.add self value st' = (Ok tt, st')
    /\ (forall key', key' <> key -> st' !! key' = st !! key').
Proof.
  intros Hc key s.
  assert (Hne : {[encode value]} ∪ s <> (∅ : gset string)) by set_solver.
  assert (Hput : RedisSet.put st key ({[encode value]} ∪ s)
                 = <[key := {[encode value]} ∪ s]> st).
  { unfold RedisSet.put. by destruct (decide (_ = ∅)). }
  exists (<[key := {[encode value]} ∪ s]> st).
  assert (Hmem : RedisSet.smembers (<[key := {[encode value]} ∪ s]> st) key
                 = {[encode value]} ∪ s).
  { unfold RedisSet.smembers. by rewrite lookup_insert_eq. }
  split; [|split; [|split; [|split; [|split]]]].
  - unfold Set_.add, step_bind. rewrite sadd_run by done. fold key s.
    by rewrite Hput.
  - exact Hmem.
  - rewrite sismember_run by done. fold key. rewrite Hmem.
    rewrite bool_decide_eq_true_2; [done|]. set_solver.
  - rewrite scard_run by done. fold key. rewrite Hmem.
    do 3 f_equal.
    destruct (decide (encode value ∈ s)) as [Hin|Hnot].
    + replace ({[encode value]} ∪ s) with s by set_solver. lia.
    + rewrite size_union by set_solver. rewrite size_singleton. lia.
  - unfold Set_.add, step_bind. rewrite sadd_run by done. fold key.
    rewrite Hmem.
    replace ({[encode value]} ∪ ({[encode value]} ∪ s))
      with ({[encode value]} ∪ s) by set_solver.
    unfold RedisSet.put. destruct (decide (_ = ∅)); [done|].
    by rewrite insert_insert_eq.
  - intros key' Hkey. by rewrite lookup_insert_ne.
Qed.

End MoreSetFacts.

Section DownwardSlice.
Context `{E : External}.

(** X26. On a direct connection a slice with a negative step and no
    bounds, as in [l[::-1]], does not read the list backwards: it returns
    the last element alone, and nothing for an empty list. *)
Theorem downward_slice_reads_the_last (l0 : List.t) (w : world) (k : Z) :
  connected l0 = true ->
  (k < 0)%Z ->
  (List.__getitem__ l0 (ISlice (Slice None None (Some k))) w).1
  = Ok (Reply (Str <$> option_list
                         (last (elements (store w) (Container.key l0))))).
Proof.
  intros Hc Hk. rewrite List_getitem_slice_run by done.
  set (l := elements (store w) (Container.key l0)).
  assert (Hs : slice_indices (Slice None None (Some k)) (Redis.llen l)
               = Ok ((Redis.llen l - 1)%Z, (-1)%Z, k)).
  { unfold slice_indices. cbn [Py.step Py.start Py.stop].
    rewrite (proj2 (Z.eqb_neq k 0)) by lia.
    by rewrite (proj2 (Z.ltb_lt k 0)) by lia. }
  rewrite Hs. cbn [fst]. do 3 f_equal.
  destruct (last l) as [x|] eqn:Hlast.
  - apply last_Some in Hlast as [l' Hl']. rewrite Hl'.
    unfold Redis.lrange, Redis.llen. rewrite length_app. cbn [length].
    cbv zeta.
    replace (Z.of_nat (length l' + 1) - 1)%Z with (Z.of_nat (length l'))
      by lia.
    rewrite (proj2 (Z.ltb_ge (Z.of_nat (length l')) 0)) by lia.
    change (-1 <? 0)%Z with true. cbv iota.
    replace (Z.of_nat (length l' + 1) + -1)%Z with (Z.of_nat (length l'))
      by lia.
    rewrite (proj2 (Z.ltb_ge (Z.of_nat (length l')) 0)) by lia.
    rewrite (proj2 (Z.ltb_ge (Z.of_nat (length l')) (Z.of_nat (length l'))))
      by lia.
    rewrite (proj2 (Z.leb_gt (Z.of_nat (length l' + 1))
                             (Z.of_nat (length l')))) by lia.
    cbn [orb]. rewrite Z.sub_diag. cbn [Z.add Z.to_nat Pos.to_nat
      Pos.iter_op Nat.add].
    rewrite Nat2Z.id, drop_app_length. reflexivity.
  - apply last_None in Hlast. rewrite Hlast. reflexivity.
Qed.

End DownwardSlice.

(** ** Hashes *)

Section HashFacts.
Context `{E : External}.
Implicit Types (self : Hash.t) (st : gmap string (gmap string string)).

Lemma fields_insert st (key : string) (h : gmap string string) :
  Hash.fields (<[key := h]> st) key = h.
Proof. unfold Hash.fields. by rewrite lookup_insert_eq. Qed.

(** How the commands of a hash run on a direct connection. *)

Lemma Hash_setitem_run self st (att : string) (val : pyobj) :
  connected self = true ->
  Hash.__setitem__ self att val st
  = (Ok tt,
     <[Container.key self :=
         <[att := encode val]> (Hash.fields st (Container.key self))]> st).
Proof.
  intros Hc. unfold Hash.__setitem__, step_bind, Hash.hset.
  by rewrite delegated_run.
Qed.

Lemma Hash_getitem_run self st (att : string) :
  connected self = true ->
  Hash.__getitem__ self att st
  = (Ok (Reply (ListMore.bulk (Hash.fields st (Container.key self) !! att))),
     st).
Proof.
  intros Hc. unfold Hash.__getitem__, Hash.hget. by rewrite delegated_run.
Qed.

Lemma Hash_contains_run self st (att : string) :
  connected self = true ->
  Hash.__contains__ self att st
  = (Ok (Reply (bool_decide
                  (is_Some (Hash.fields st (Container.key self) !! att)))),
     st).
Proof.
  intros Hc. unfold Hash.__contains__, Hash.hexists.
  by rewrite delegated_run.
Qed.

Lemma Hash_delitem_run self st (att : string) :
  connected self = true ->
  Hash.__delitem__ self att st
  = (Ok tt,
     if decide (delete att (Hash.fields st (Container.key self)) = ∅)
     then delete (Container.key self) st
     else <[Container.key self :=
              delete att (Hash.fields st (Container.key self))]> st).
Proof.
  intros Hc. unfold Hash.__delitem__, step_bind, Hash.hdel.
  by rewrite delegated_run.
Qed.

Lemma Hash_get_dict_run self st :
  connected self = true ->
  Hash._get_dict self st
  = (Ok (Reply (Hash.fields st (Container.key self))), st).
Proof.
  intros Hc. unfold Hash._get_dict, Hash.hgetall. by rewrite delegated_run.
Qed.

(** Assigning the items of a list of pairs with distinct keys. *)
Lemma update_run self (kvs : list (string * pyobj)) :
  connected self = true ->
  NoDup kvs.*1 ->
  forall st, exists st',
    step_for_each (fun kv => Hash.__setitem__ self kv.1 kv.2) kvs st
    = (Ok tt, st')
    /\ (forall att,
          Hash.fields st' (Container.key self) !! att
          = match (list_to_map kvs : gmap string pyobj) !! att with
            | Some v => Some (encode v)
            | None => Hash.fields st (Container.key self) !! att
            end)
    /\ (forall key', key' <> Container.key self -> st' !! key' = st !! key').
Proof.
  intros Hc.
  induction kvs as [|[k v] kvs IH]; intros Hnd st.
  - exists st. split; [reflexivity|]. split; [|done].
    intros att. by rewrite list_to_map_nil, lookup_empty.
  - apply NoDup_cons in Hnd as [Hk Hnd]. cbn [step_for_each].
    unfold step_bind at 1. rewrite Hash_setitem_run by done.
    cbn [fst snd].
    destruct (IH Hnd
                (<[Container.key self :=
                     <[k := encode v]> (Hash.fields st (Container.key self))]>
                   st))
      as (st' & Hrun & Hfields & Hother).
    exists st'. split; [exact Hrun|]. split.
    + intros att. rewrite Hfields, fields_insert. cbn [list_to_map foldr].
      destruct (decide (att = k)) as [->|Hne].
      * rewrite (not_elem_of_list_to_map_1 _ k) by done.
        by rewrite !lookup_insert_eq.
      * rewrite !lookup_insert_ne by done. reflexivity.
    + intros key' Hkey. rewrite Hother by done.
      by rewrite lookup_insert_ne.
Qed.

(** X27. On a direct connection [update] with a [dict] sets the fields of
    the [dict] to the stored form of their values and keeps the other
    fields. Assigning [dict] replaces the hash: reading [dict] afterwards
    gives the stored form of what was assigned and nothing of what was
    there. No other key changes. *)
Theorem set_dict_round_trip self st (d : gmap string pyobj) :
  connected self = true ->
  let key := Container.key self in
  (exists st',
     Hash.update self d st = (Ok tt, st')
     /\ (forall att,
           Hash.fields st' key !! att
           = match d !! att with
             | Some v => Some (encode v)
             | None => Hash.fields st key !! att
             end)
     /\ (forall key', key' <> key -> st' !! key' = st !! key'))
  /\ (exists st',
        Hash._set_dict self d st = (Ok tt, st')
        /\ Hash._get_dict self st' = (Ok (Reply (encode <$> d)), st')
        /\ (forall key', key' <> key -> st' !! key' = st !! key')).
Proof.
  intros Hc key.
  assert (Hup : forall st0, exists st',
    Hash.update self d st0 = (Ok tt, st')
    /\ (forall att,
          Hash.fields st' key !! att
          = match d !! att with
            | Some v => Some (encode v)
            | None => Hash.fields st0 key !! att
            end)
    /\ (forall key', key' <> key -> st' !! key' = st0 !! key')).
  { intros st0.
    destruct (update_run self (map_to_list d) Hc (NoDup_fst_map_to_list d) st0)
      as (st' & Hrun & Hfields & Hother).
    exists st'. split; [exact Hrun|]. split; [|exact Hother].
    intros att. rewrite Hfields. by rewrite list_to_map_to_list. }
  split; [apply Hup|].
  destruct (Hup (delete key st)) as (st' & Hrun & Hfields & Hother).
  exists st'. split; [|split].
  - unfold Hash._set_dict, step_bind. rewrite clear_run by done.
    fold key. exact Hrun.
  - rewrite Hash_get_dict_run by done. fold key. do 3 f_equal.
    apply map_eq. intros att. rewrite Hfields, lookup_fmap.
    unfold Hash.fields. rewrite lookup_delete_eq. cbn [default].
    rewrite lookup_empty. by destruct (d !! att).
  - intros key' Hkey. rewrite Hother by done. by apply lookup_delete_ne.
Qed.

(** X28. On a direct connection a field that is not there reads as
    [None]: the subscript does not raise. After an assignment the field
    reads as the stored form of the value and is contained, the other
    fields are as before; after the deletion of the field it reads as
    [None] again. *)
Theorem hash_item_round_trip self st (att : string) (val : pyobj) :
  connected self = true ->
  let key := Container.key self in
  (Hash.fields st key !! att = None ->
   Hash.__getitem__ self att st = (Ok (Reply None_), st)
   /\ Hash.__contains__ self att st = (Ok (Reply false), st))
  /\ exists st',
       Hash.__setitem__ self att val st = (Ok tt, st')
       /\ Hash.__getitem__ self att st' = (Ok (Reply (Str (encode val))), st')
       /\ Hash.__contains__ self att st' = (Ok (Reply true), st')
       /\ (forall att', att' <> att ->
             Hash.fields st' key !! att' = Hash.fields st key !! att')
       /\ (forall key', key' <> key -> st' !! key' = st !! key')
       /\ (Hash.__getitem__ self att (Hash.__delitem__ self att st').2).1
          = Ok (Reply None_).
Proof.
  intros Hc key. split.
  - intros Hnone. rewrite Hash_getitem_run, Hash_contains_run by done.
    fold key. rewrite Hnone. split; [reflexivity|].
    rewrite bool_decide_eq_false_2; [done|]. by intros [? ?].
  - eexists. split; [by apply Hash_setitem_run|].
    rewrite Hash_getitem_run, Hash_contains_run, Hash_delitem_run by done.
    fold key. rewrite !fields_insert.
    rewrite !lookup_insert_eq.
    split; [reflexivity|]. split.
    { rewrite bool_decide_eq_true_2; [done|]. by eexists. }
    split; [by intros att' Hne; rewrite lookup_insert_ne|].
    split; [by intros key' Hne; rewrite lookup_insert_ne|].
    rewrite Hash_getitem_run by done. cbn [fst snd]. fold key.
    destruct (decide (delete att _ = ∅)) as [Hempty|Hsome].
    + unfold Hash.fields. by rewrite lookup_delete_eq.
    + rewrite fields_insert. by rewrite lookup_delete_eq.
Qed.

End HashFacts.

(** ** The scenario, through these properties *)

Section MoreScenarioRuns.
Import Scenario MoreScenario.
#[local] Existing Instance toy.

Lemma slice_reads_one_past_the_stop_witness :
  List.__getitem__ number_list (ISlice (Slice (Some 1%Z) (Some 2%Z) None))
                   world0
  = (Ok (Reply [Str "2"; Str "3"]),
     logged world0 [EvCommand (LLEN "numbers");
                    EvCommand (LRANGE "numbers" 1 2)]).
Proof.
  apply (slice_reads_one_past_the_stop number_list world0
           (Slice (Some 1%Z) (Some 2%Z) None) 1 2 1);
    [reflexivity | reflexivity | lia].
Defined.

Lemma open_slice_is_the_tail_witness :
  (TypedList.__getitem__ numbers (ISlice (Slice (Some 1%Z) None None))
                         world0).1
  = Ok [Int 2; Int 3].
Proof.
  apply (proj1 (proj2 (open_slice_is_the_tail numbers world0
                         (Some 1%Z) None eq_refl I))).
Defined.

Lemma subscript_outside_reads_None_witness :
  TypedList.__getitem__ users (IInt 5) world0
  = (Ok None_, logged world0 [EvCommand (LINDEX "users" 5)]).
Proof.
  assert (Hout : (Redis.llen (elements (store world0) "users") <= 5)%Z)
    by (vm_compute; discriminate).
  apply (proj2 (subscript_outside_reads_None users world0 5
                  eq_refl eq_refl (or_introl Hout))).
Defined.

Lemma subscript_agrees_with_all_witness :
  (TypedList.__getitem__ numbers (IInt (-1)) world0).1 = Ok (Int 3).
Proof.
  assert (Hin : (- Redis.llen (elements (store world0) "numbers") <= -1
                 < Redis.llen (elements (store world0) "numbers"))%Z)
    by (vm_compute; split; [discriminate | reflexivity]).
  destruct (subscript_agrees_with_all numbers world0 (-1)
              [Int 1; Int 2; Int 3] eq_refl eq_refl eq_refl eq_refl Hin)
    as (x & Hx & Hget).
  vm_compute in Hx. injection Hx as <-. exact Hget.
Defined.

Lemma extend_is_append_each_witness :
  TypedList.extend users [Inst "c"; Inst "a"] world0
  = TypedListMore.append_each users [Inst "c"; Inst "a"] world0.
Proof.
  apply (extend_is_append_each users world0 [Inst "c"; Inst "a"]
           [Str "c"; Str "a"]).
  repeat constructor.
Defined.

Lemma extend_writes_all_or_nothing_witness :
  TypedList.extend users [Inst "c"; Str "d"; Inst "a"] world0
    = (Raise (AttributeError "id"), world0)
  /\ elements
       (store (TypedListMore.append_each users
                 [Inst "c"; Str "d"; Inst "a"] world0).2) "users"
     = ["a"; "b"; "c"; "c"].
Proof.
  destruct (extend_writes_all_or_nothing users world0
              [Inst "c"] (Str "d") [Inst "a"] [Str "c"]
              (AttributeError "id") eq_refl
              ltac:(repeat constructor) eq_refl)
    as (Hext & Hone).
  split; [exact Hext | exact (proj2 (Hone eq_refl))].
Defined.

Lemma unusable_default_is_not_cached_witness :
  Container.db (E := toy) (Raise (ImportError "connection")) bare
    = (Raise (ImportError "connection"), bare)
  /\ (Container.db (E := toy) (Ok (Some "late"))
        (Container.db (E := toy) (Ok None) bare).2).1
     = Ok (Some "late").
Proof.
  destruct (unusable_default_is_not_cached (E := toy) bare eq_refl eq_refl
              (or_introl eq_refl))
    as (Hfail & _ & Hnext).
  split; [apply Hfail | apply Hnext].
Defined.

Lemma early_stop_reads_what_it_takes_witness :
  TypedListMore.first_items 2 numbers (TypedList.__iter__ numbers) world0
  = (Ok [Int 1; Int 2],
     logged world0 [EvCommand (LLEN "numbers");
                    EvCommand (LINDEX "numbers" 0);
                    EvCommand (LINDEX "numbers" 1)]).
Proof.
  apply (early_stop_reads_what_it_takes numbers world0 1 [Int 1; Int 2]).
  - reflexivity.
  - reflexivity.
  - vm_compute. lia.
  - repeat constructor.
Defined.

Lemma reverse_reverses_witness :
  elements (ListMore.reverse number_list lists0).2 "numbers"
  = ["3"; "2"; "1"].
Proof.
  destruct (reverse_reverses number_list lists0 eq_refl (fun s => eq_refl))
    as (st' & Hrun & Hel & _).
  rewrite Hrun. exact Hel.
Defined.


Lemma pop_takes_the_tail_witness :
  ListMore.pop number_list lists0
  = (Ok (Reply (Str "3")), <["numbers" := ["1"; "2"]]> lists0).
Proof.
  apply (proj1 (pop_takes_the_tail number_list lists0 eq_refl)
           ["1"; "2"] "3").
  reflexivity.
Defined.

Lemma shift_takes_the_head_witness :
  ListMore.shift number_list lists0
  = (Ok (Reply (Str "1")), <["numbers" := ["2"; "3"]]> lists0).
Proof.
  apply (proj1 (shift_takes_the_head number_list lists0 eq_refl)
           "1" ["2"; "3"]).
  reflexivity.
Defined.

Lemma pop_onto_moves_the_tail_witness :
  exists st',
    ListMore.pop_onto number_list "users" lists0
    = (Ok (Reply (Str "3")), st')
    /\ elements st' "numbers" = ["1"; "2"]
    /\ elements st' "users" = ["3"; "a"; "b"; "c"].
Proof.
  destruct (proj1 (pop_onto_moves_the_tail number_list lists0 "users"
                     eq_refl)
              ["1"; "2"] "3" eq_refl)
    as (st' & Hrun & Hmove & _).
  exists st'. split; [exact Hrun|]. apply Hmove. discriminate.
Defined.

Lemma index_finds_the_first_witness :
  ListMore.index (fun s => s) number_list "2" lists0 = (Ok 1%Z, lists0).
Proof.
  destruct (index_finds_the_first number_list lists0 "2" (fun s => s)
              eq_refl eq_refl)
    as (i & Hrun & Hat & _).
  - vm_compute. right. left.
  - rewrite Hrun. do 2 f_equal.
    destruct i as [|[|[|i]]]; vm_compute in Hat;
      first [reflexivity | discriminate Hat].
Defined.

Lemma index_raises_where_count_is_zero_witness :
  ListMore.index (fun s => s) number_list "9" lists0
    = (Raise (ValueError "9 is not in list"), lists0)
  /\ ListMore.count number_list "9" lists0 = (Ok 0%Z, lists0).
Proof.
  apply (proj1 (index_raises_where_count_is_zero number_list lists0 "9"
                  (fun s => s) eq_refl)).
  vm_compute. intros Hin.
  repeat (apply elem_of_cons in Hin as [Hin|Hin]; [discriminate|]).
  by apply not_elem_of_nil in Hin.
Defined.

Lemma clear_empties_witness :
  untraced (List.all number_list) (clear number_list lists0).2
    = (Ok (Reply []), (clear number_list lists0).2)
  /\ (clear number_list lists0).2 !! "users" = lists0 !! "users".
Proof.
  destruct (clear_empties number_list lists0 eq_refl)
    as (_ & _ & Hall & _ & Hother).
  split; [exact Hall | apply Hother; discriminate].
Defined.

Lemma setitem_then_getitem_witness :
  (TypedListMore.set_then_get numbers (-1) (Int 7) lists0).1 = Ok (Int 7).
Proof.
  assert (Hin : (- Redis.llen (elements lists0 "numbers") <= -1
                 < Redis.llen (elements lists0 "numbers"))%Z)
    by (vm_compute; split; [discriminate | reflexivity]).
  destruct (setitem_then_getitem numbers lists0 (-1) (Int 7) (Int 7)
              eq_refl eq_refl eq_refl Hin)
    as (st' & _ & _ & _ & _ & Hget).
  rewrite Hget. reflexivity.
Defined.

Lemma setitem_outside_raises_witness :
  TypedListMore.__setitem__ numbers 3 (Int 7) lists0
  = (Raise (RedisList.ResponseError "index out of range"), lists0).
Proof.
  assert (Hout : (Redis.llen (elements lists0 "numbers") <= 3)%Z)
    by (vm_compute; discriminate).
  destruct (proj1 (setitem_outside_raises numbers lists0 3 (Int 7) (Int 7)
                     eq_refl eq_refl eq_refl (or_introl Hout)))
    as (msg & Hrun).
  rewrite Hrun. vm_compute in Hrun. congruence.
Defined.

Lemma remove_raises_where_discard_passes_witness :
  exists st',
    Set_.discard s1 (Str "z") sets0 = (Ok tt, st')
    /\ RedisSet.smembers st' "s1" = RedisSet.smembers sets0 "s1".
Proof.
  destruct (remove_raises_where_discard_passes s1 sets0 (Str "z") eq_refl)
    as (st' & Hdis & _ & _ & Hsame & _).
  exists st'. split; [exact Hdis|]. apply Hsame.
  vm_compute. intros Hin. set_solver.
Defined.



Lemma set_algebra_stores_the_result_witness :
  exists st',
    Set_.union s1 (Str "s3") [s2] sets0
    = (Ok (Container.__init__ "s3" (Some "conn") None), st')
    /\ (forall key', key' <> "s3" -> st' !! key' = sets0 !! key').
Proof.
  destruct (set_algebra_stores_the_result s1 sets0 "s3" [s2] eq_refl)
    as (h & Hdb & (st' & Hrun & _ & Hother) & _).
  injection Hdb as <-.
  exists st'. by split.
Defined.

Lemma set_copy_duplicates_or_empties_witness :
  exists st',
    Set_.copy s1 "s1" sets0
    = (Ok (Container.__init__ "s1" (Some "conn") None), st')
    /\ RedisSet.smembers st' "s1" = ∅.
Proof.
  destruct (set_copy_duplicates_or_empties s1 sets0 "s1" eq_refl)
    as (h & st' & Hdb & Hrun & _ & Hsame & _).
  injection Hdb as <-.
  exists st'. split; [exact Hrun | by apply Hsame].
Defined.

Lemma add_then_contains_witness :
  exists st',
    Set_.add s1 (Str "z") sets0 = (Ok tt, st')
    /\ Set_.__contains__ s1 (Str "z") st' = (Ok (Reply true), st')
    /\ st' !! "s2" = sets0 !! "s2".
Proof.
  destruct (add_then_contains s1 sets0 (Str "z") eq_refl)
    as (st' & Hadd & _ & Hin & _ & _ & Hother).
  exists st'. split; [exact Hadd|]. split; [exact Hin|].
  apply Hother. discriminate.
Defined.

Lemma downward_slice_reads_the_last_witness :
  (List.__getitem__ number_list (ISlice (Slice None None (Some (-1)%Z)))
                    world0).1
  = Ok (Reply [Str "3"]).
Proof.
  apply (downward_slice_reads_the_last number_list world0 (-1) eq_refl). lia.
Defined.

Lemma set_dict_round_trip_witness :
  exists st',
    Hash._set_dict h1 {["name" := Str "bob"]} hashes0 = (Ok tt, st')
    /\ Hash._get_dict h1 st'
       = (Ok (Reply (encode <$> ({["name" := Str "bob"]}
                                 : gmap string pyobj))), st')
    /\ (forall key', key' <> "h1" -> st' !! key' = hashes0 !! key').
Proof.
  exact (proj2 (set_dict_round_trip h1 hashes0 {["name" := Str "bob"]}
                  eq_refl)).
Defined.

Lemma hash_item_round_trip_witness :
  Hash.__getitem__ h1 "town" hashes0 = (Ok (Reply None_), hashes0)
  /\ Hash.__contains__ h1 "town" hashes0 = (Ok (Reply false), hashes0).
Proof.
  apply (proj1 (hash_item_round_trip h1 hashes0 "town" (Str "x") eq_refl)).
  reflexivity.
Defined.

(** Through a pipeline the other methods buffer as well: [pop] returns
    the pipeline, [clear] deletes nothing, and comparing the lengths of two
    sets raises. *)
Example pipeline_buffers_the_rest :
  ListMore.pop (TypedList.list_ piped_numbers) lists0
    = (Ok (Queued "pipe"), lists0)
  /\ clear (TypedList.list_ piped_numbers) lists0 = (Ok tt, lists0)
  /\ Set_.__eq__ (Container.__init__ "s1" None (Some "pipe"))
                 (Container.__init__ "s2" None (Some "pipe")) sets0
     = (Raise (TypeError "an integer is required"), sets0).
Proof. repeat split. Qed.

(** Without a connection nothing is sent: the import in [db] raises. *)
Example stranded_raises_everywhere :
  ListMore.pop (TypedList.list_ stranded_numbers) lists0
    = (Raise (ImportError "cannot import name connection"), lists0)
  /\ Set_.union (Container.__init__ "s1" None None) (Str "s3") [s2] sets0
     = (Raise (ImportError "cannot import name connection"), sets0).
Proof. repeat split. Qed.

End MoreScenarioRuns.
